(** * WasteImageClassification: the response parser, the prompt, the
      image encoder and the start-up path of [WC.py]

    A shallow embedding of [src/WC.py].  Python [str] values are sequences
    of Unicode code points, [bytes] values are sequences of bytes, raised
    exceptions are values of [outcome], and the calls into Streamlit, the
    camera and the Groq client are recorded as a trace of events. *)

From Stdlib Require Import NArith List String Ascii Bool Lia.
From Stdlib.Strings Require Import Byte.
From stdpp Require Import gmap strings.
Import ListNotations.

Local Open Scope N_scope.
Local Open Scope list_scope.

(** ** Python strings *)

Module PyStr.

(** A [str] is a sequence of code points. *)
Abbreviation pystr := (list N).

(** A literal of the source, written as a Rocq string (ASCII only). *)
Definition py (s : string) : pystr :=
  List.map N_of_ascii (list_ascii_of_string s).

Arguments py : simpl never.

Definition nl : pystr := [10].

(** [str.isspace] on one code point: the code points with the Unicode
    White_Space property or a bidirectional type of WS, B or S, which is
    the set [str.strip()] removes. *)
Definition isspace (c : N) : bool :=
  ((9 <=? c) && (c <=? 13)) || ((28 <=? c) && (c <=? 32))
  || (c =? 133) || (c =? 160) || (c =? 5760)
  || ((8192 <=? c) && (c <=? 8202))
  || (c =? 8232) || (c =? 8233) || (c =? 8239) || (c =? 8287)
  || (c =? 12288).

(** [c in chars] for a character [c]. *)
Definition char_in (chars : pystr) (c : N) : bool :=
  existsb (N.eqb c) chars.

(** Drop the longest prefix whose characters satisfy [p]. *)
Fixpoint lstrip_with (p : N -> bool) (s : pystr) : pystr :=
  match s with
  | [] => []
  | c :: s' => if p c then lstrip_with p s' else s
  end.

Definition rstrip_with (p : N -> bool) (s : pystr) : pystr :=
  rev (lstrip_with p (rev s)).

(** [s.strip()] *)
Definition strip (s : pystr) : pystr :=
  rstrip_with isspace (lstrip_with isspace s).

(** [s.lstrip(chars)] *)
Definition lstrip (chars s : pystr) : pystr :=
  lstrip_with (char_in chars) s.

(** [s.split(sep)] for a separator of one character: one piece more than
    there are separators, the empty string giving one empty piece. *)
Fixpoint split (sep : N) (s : pystr) : list pystr :=
  match s with
  | [] => [[]]
  | c :: s' =>
      if c =? sep then [] :: split sep s'
      else match split sep s' with
           | [] => [[c]]
           | piece :: pieces => (c :: piece) :: pieces
           end
  end.

(** [sep.join(parts)] *)
Fixpoint join (sep : pystr) (parts : list pystr) : pystr :=
  match parts with
  | [] => []
  | [p] => p
  | p :: rest => p ++ sep ++ join sep rest
  end.

(** [s.startswith(p)] *)
Fixpoint startswith (p s : pystr) : bool :=
  match p, s with
  | [], _ => true
  | _ :: _, [] => false
  | a :: p', b :: s' => (a =? b) && startswith p' s'
  end.

(** The number of positions of [s] at which [sub] starts.  When it is 1,
    [sub] occurs exactly once in [s] and [s.count(sub)] is 1. *)
Fixpoint occurrences (sub s : pystr) : nat :=
  match s with
  | [] => if startswith sub [] then 1%nat else 0%nat
  | _ :: s' => ((if startswith sub s then 1 else 0) + occurrences sub s')%nat
  end.

End PyStr.
Import PyStr.

(** ** Exceptions and results *)

(** A raised exception: the names of its class and of the classes it
    inherits from, most specific first, and its message. *)
Record exn := MkExn { exn_mro : list string; exn_msg : pystr }.

(** [isinstance(e, cls)] *)
Definition isinstance (e : exn) (cls : string) : bool :=
  existsb (String.eqb cls) (exn_mro e).

Definition IndexError (msg : pystr) : exn :=
  MkExn ["IndexError"; "LookupError"; "Exception"; "BaseException"]%string msg.
Definition AttributeError (msg : pystr) : exn :=
  MkExn ["AttributeError"; "Exception"; "BaseException"]%string msg.
Definition ValueError (msg : pystr) : exn :=
  MkExn ["ValueError"; "Exception"; "BaseException"]%string msg.

(** What evaluating an expression gives: a value or a raised exception. *)
Inductive outcome (A : Type) : Type :=
| Return (a : A)
| Raise (e : exn).
Arguments Return {A} a.
Arguments Raise {A} e.

Definition obind {A B} (m : outcome A) (f : A -> outcome B) : outcome B :=
  match m with
  | Return a => f a
  | Raise e => Raise e
  end.

#[global] Instance outcome_ret : MRet outcome := @Return.
#[global] Instance outcome_bind : MBind outcome := fun A B f m => obind m f.

(** [l[i]] for a list and a non-negative index. *)
Definition getitem {A} (l : list A) (i : nat) : outcome A :=
  match nth_error l i with
  | Some x => Return x
  | None => Raise (IndexError (py "list index out of range"))
  end.

(** ** Bytes, UTF-8 and Base64 *)

Definition UnicodeDecodeError (msg : pystr) : exn :=
  MkExn ["UnicodeDecodeError"; "UnicodeError"; "ValueError"; "Exception";
         "BaseException"]%string msg.
Definition BinasciiError (msg : pystr) : exn :=
  MkExn ["Error"; "ValueError"; "Exception"; "BaseException"]%string msg.

Module Utf8.

Definition is_cont (b : N) : bool := (128 <=? b) && (b <? 192).

Definition invalid : exn :=
  UnicodeDecodeError (py "'utf-8' codec can't decode bytes").

(** [bs.decode('utf-8')] with the strict error handler: sequences of one
    to four bytes, no overlong forms, no surrogates, nothing above
    U+10FFFF. *)
Fixpoint decode (bs : list byte) : outcome pystr :=
  match bs with
  | [] => Return []
  | x0 :: r0 =>
      let b0 := Byte.to_N x0 in
      if b0 <? 128 then (rest ← decode r0; Return (b0 :: rest))
      else
        match r0 with
        | [] => Raise invalid
        | x1 :: r1 =>
            let b1 := Byte.to_N x1 in
            if (194 <=? b0) && (b0 <? 224) && is_cont b1 then
              (rest ← decode r1;
               Return (((b0 - 192) * 64 + (b1 - 128)) :: rest))
            else
              match r1 with
              | [] => Raise invalid
              | x2 :: r2 =>
                  let b2 := Byte.to_N x2 in
                  let cp3 := (b0 - 224) * 4096 + (b1 - 128) * 64 + (b2 - 128) in
                  if (224 <=? b0) && (b0 <? 240) && is_cont b1 && is_cont b2
                     && (2048 <=? cp3)
                     && negb ((55296 <=? cp3) && (cp3 <=? 57343)) then
                    (rest ← decode r2; Return (cp3 :: rest))
                  else
                    match r2 with
                    | [] => Raise invalid
                    | x3 :: r3 =>
                        let b3 := Byte.to_N x3 in
                        let cp4 := (b0 - 240) * 262144 + (b1 - 128) * 4096
                                   + (b2 - 128) * 64 + (b3 - 128) in
                        if (240 <=? b0) && (b0 <? 248) && is_cont b1
                           && is_cont b2 && is_cont b3
                           && (65536 <=? cp4) && (cp4 <=? 1114111) then
                          (rest ← decode r3; Return (cp4 :: rest))
                        else Raise invalid
                    end
              end
        end
  end.

End Utf8.

Module Base64.

(** The alphabet of RFC 4648, section 4. *)
Definition alphabet : pystr :=
  py "ABCDEFGHIJKLMNOPQRSTUVWXYZabcdefghijklmnopqrstuvwxyz0123456789+/".

Definition pad : N := 61.

(** The ASCII byte that encodes a group of six bits. *)
Definition enc6 (i : N) : byte :=
  match Byte.of_N (nth (N.to_nat i) alphabet pad) with
  | Some b => b
  | None => x3d
  end.

Definition pad_byte : byte := x3d.

(** The six bits a character of the alphabet stands for. *)
Definition dec6 (c : N) : option N :=
  if (65 <=? c) && (c <=? 90) then Some (c - 65)
  else if (97 <=? c) && (c <=? 122) then Some (c - 71)
  else if (48 <=? c) && (c <=? 57) then Some (c + 4)
  else if c =? 43 then Some 62
  else if c =? 47 then Some 63
  else None.

(** [base64.b64encode(bs)]: three bytes give four characters; a last
    group of one or two bytes is padded with [=]. *)
Fixpoint b64encode (bs : list byte) : list byte :=
  match bs with
  | [] => []
  | [x] =>
      let a := Byte.to_N x in
      [enc6 (a / 4); enc6 ((a mod 4) * 16); pad_byte; pad_byte]
  | [x; y] =>
      let a := Byte.to_N x in
      let b := Byte.to_N y in
      [enc6 (a / 4); enc6 ((a mod 4) * 16 + b / 16); enc6 ((b mod 16) * 4);
       pad_byte]
  | x :: y :: z :: rest =>
      let a := Byte.to_N x in
      let b := Byte.to_N y in
      let c := Byte.to_N z in
      enc6 (a / 4) :: enc6 ((a mod 4) * 16 + b / 16)
      :: enc6 ((b mod 16) * 4 + c / 64) :: enc6 (c mod 64)
      :: b64encode rest
  end.

Definition incorrect : exn := BinasciiError (py "Incorrect padding").

Definition byte_of (n : N) : outcome byte :=
  match Byte.of_N n with
  | Some b => Return b
  | None => Raise incorrect
  end.

(** The decoding of RFC 4648, section 4, on a text: groups of four
    characters of the alphabet, the last group possibly ending in one or
    two [=].  [base64.b64decode] gives the same bytes on every text it
    accepts with [validate=True]; any other text raises here. *)
Fixpoint b64decode (s : pystr) : outcome (list byte) :=
  match s with
  | [] => Return []
  | c1 :: c2 :: c3 :: c4 :: rest =>
      match dec6 c1, dec6 c2 with
      | Some d1, Some d2 =>
          if (c3 =? pad) && (c4 =? pad) then
            match rest with
            | [] => (x ← byte_of (d1 * 4 + d2 / 16); Return [x])
            | _ :: _ => Raise incorrect
            end
          else
            match dec6 c3 with
            | Some d3 =>
                if c4 =? pad then
                  match rest with
                  | [] =>
                      (x ← byte_of (d1 * 4 + d2 / 16);
                       y ← byte_of ((d2 mod 16) * 16 + d3 / 4);
                       Return [x; y])
                  | _ :: _ => Raise incorrect
                  end
                else
                  match dec6 c4 with
                  | Some d4 =>
                      (x ← byte_of (d1 * 4 + d2 / 16);
                       y ← byte_of ((d2 mod 16) * 16 + d3 / 4);
                       z ← byte_of ((d3 mod 4) * 64 + d4);
                       tl ← b64decode rest;
                       Return (x :: y :: z :: tl))
                  | None => Raise incorrect
                  end
            | None => Raise incorrect
            end
      | _, _ => Raise incorrect
      end
  | _ => Raise incorrect
  end.

End Base64.

(** ** OpenCV frames *)

(** A decoded image as OpenCV holds it: [rows] by [cols] pixels of three
    bytes each, in row-major order. *)
Record frame := MkFrame { rows : nat; cols : nat; pixels : list byte }.

(** ** The remote client, the user interface and the camera *)

(** The chat request of [classify_image]: one user message with a text
    part and an image part, a model name and a cap on the reply. *)
Record request := MkRequest {
  req_text : pystr;
  req_image_url : pystr;
  req_model : pystr;
  req_max_tokens : N
}.

(** The reply: [response.choices[i].message.content], which may be
    [None]. *)
Record choice := MkChoice { message_content : option pystr }.
Record response := MkResponse { choices : list choice }.

(** The object [Groq(api_key=...)] builds. *)
Record groq_client := MkGroq { client_api_key : pystr }.

(** What the program does to the outside, in order. *)
Inductive event : Type :=
| LoadDotenv
| StSetPageConfig (page_title page_icon : pystr)
| StTitle (text : pystr)
| StError (msg : pystr)
| StWarning (msg : pystr)
| StSuccess (msg : pystr)
| StInfo (msg : pystr)
| StStop
| StEmpty
| StButton (label : pystr)
| StImage (image : frame)
| Print (text : pystr)
| GroqInit (api_key : pystr)
| GroqCreate (req : request)
| CapOpen (index : nat)
| CapRead
| CapRelease.

(** A statement of the program: the events it causes, then its value or
    the exception that ends it. *)
Definition io (A : Type) : Type := (list event * outcome A)%type.

Definition io_bind {A B} (m : io A) (f : A -> io B) : io B :=
  match m with
  | (t, Return a) => let (t', r) := f a in (t ++ t', r)
  | (t, Raise e) => (t, Raise e)
  end.

#[global] Instance io_ret : MRet io := fun A a => ([], Return a).
#[global] Instance io_mbind : MBind io := fun A B f m => io_bind m f.

Definition emit (ev : event) : io unit := ([ev], Return tt).
Definition raise {A} (e : exn) : io A := ([], Raise e).
Definition lift {A} (m : outcome A) : io A := ([], m).

(** [try: body except cls as e: handler(e)] *)
Definition try_except {A} (body : io A) (cls : string) (handler : exn -> io A)
  : io A :=
  match body with
  | (t, Raise e) =>
      if isinstance e cls then let (t', r) := handler e in (t ++ t', r)
      else (t, Raise e)
  | (t, Return a) => (t, Return a)
  end.

(** [bool(s)] for a string, and for a string or [None]. *)
Definition truth (s : pystr) : bool :=
  match s with [] => false | _ :: _ => true end.
Definition truthy (o : option pystr) : bool :=
  match o with Some s => truth s | None => false end.

(** [a or b] on values that are strings or [None]. *)
Definition py_or (a b : option pystr) : option pystr :=
  if truthy a then a else b.

(** [load_dotenv()]: the variables of the [.env] file are added to the
    process environment; a variable already set keeps its value. *)
Definition load_dotenv (environ dotenv : gmap pystr pystr)
  : gmap pystr pystr :=
  environ ∪ dotenv.

(** [os.getenv(name)] *)
Definition getenv (environ : gmap pystr pystr) (name : pystr)
  : option pystr :=
  environ !! name.

(** [st.stop()] ends the run of the script by raising an exception that
    is not an [Exception]. *)
Definition StopException : exn :=
  MkExn ["StopException"; "ScriptControlException"; "BaseException"]%string [].
Definition st_stop {A} : io A := ([StStop], Raise StopException).

(** ** The classifier: vocabulary and response parser *)

Module WasteClassifier.

Definition VALID_CATEGORIES : list pystr :=
  List.map py
    ["Recycling"; "Organic"; "Trash"; "Electronics"; "Miscellaneous";
     "Plastic"; "Metal"; "Glass"; "Paper"; "Textiles"; "Batteries";
     "Hazardous Waste"; "Food Waste"; "Bulky Waste"; "E-waste";
     "Toxic Waste"]%string.

(** The pair returned whenever no classification is available. *)
Definition fallback : pystr * pystr :=
  (py "Miscellaneous", py "General waste disposal recommended").

(** The body of the list comprehension of [clean_response]:
    [line.strip().lstrip('0123456789. ')]. *)
Definition clean_line (line : pystr) : pystr :=
  lstrip (py "0123456789. ") (strip line).

Definition cleaned_lines (response : pystr) : list pystr :=
  List.map clean_line (split 10 response).

Definition clean_response (response : pystr) : outcome (pystr * pystr) :=
  let cleaned := cleaned_lines response in
  if (2 <=? length cleaned)%nat then
    (category ← getitem cleaned 0;
     advice ← getitem cleaned 1;
     Return (category, advice))
  else Return fallback.

(** [encode_image(frame)], a static method.  [imencode] is
    [cv2.imencode('.jpg', frame)] followed by [tobytes()]: the JPEG
    compressor, which OpenCV provides, on the frames it compresses.  A
    frame it refuses (an empty image, on which it raises [cv2.error]) has
    no counterpart here: what is proved of [encode_image] is proved of the
    text it returns when the compressor has produced its bytes. *)
Definition encode_image (imencode : frame -> list byte) (f : frame)
  : outcome pystr :=
  let encoded_image := imencode f in
  Utf8.decode (Base64.b64encode encoded_image).

(** An instance: [self.client]. *)
Record classifier := MkClassifier { client : groq_client }.

(** [__init__(self, api_key=None)], in a process whose environment is
    [environ] and whose [.env] file holds [dotenv]. *)
Definition init (environ dotenv : gmap pystr pystr) (api_key : option pystr)
  : io classifier :=
  _ ← emit LoadDotenv;
  let environ := load_dotenv environ dotenv in
  let api_key := py_or api_key (getenv environ (py "GROQ_API_KEY")) in
  if negb (truthy api_key) then
    _ ← emit (StError
                (py "No Groq API key found. Please set GROQ_API_KEY in .env file."));
    raise (ValueError (py "No API key provided"))
  else
    let key := default [] api_key in
    _ ← emit (GroqInit key);
    mret (MkClassifier (MkGroq key)).

Definition indent : pystr := repeat 32 28%nat.

(** The f-string sent as the text part of the request. *)
Definition prompt : pystr :=
  join nl
    [ [];
      indent ++ py "EXPERT WASTE CLASSIFICATION TASK: Analyze the image and follow these STRICT guidelines:";
      indent ++ py "CLASSIFICATION REQUIREMENTS:";
      indent ++ py "- SELECT EXACTLY ONE waste category from this PRECISE list: "
             ++ join (py ", ") VALID_CATEGORIES;
      indent ++ py "- Base classification on VISUAL CHARACTERISTICS and MATERIAL COMPOSITION";
      indent ++ py "- MOST SPECIFIC category takes precedence";
      indent ++ py "- IGNORE context, focus SOLELY on the object's inherent waste type";
      [];
      indent ++ py "RESPONSE FORMAT (MANDATORY):";
      indent ++ py "- FIRST LINE: Waste Category (ONE WORD)";
      indent ++ py "- SECOND LINE: Concise, actionable disposal recommendation";
      indent ++ py "- NO additional text, numbering, or explanatory content";
      indent ++ py "- USE clear, professional language";
      indent ++ py "- PRIORITIZE local, environmentally responsible disposal methods";
      [];
      indent ++ py "CRITICAL CONSTRAINTS:";
      indent ++ py "- Maximum 10 words for category";
      indent ++ py "- Maximum 40 words for disposal advice";
      indent ++ py "- ZERO speculation or unnecessary details";
      indent ].

Definition build_request (base64_image : pystr) : request :=
  MkRequest prompt
            (py "data:image/jpeg;base64," ++ base64_image)
            (py "meta-llama/llama-4-scout-17b-16e-instruct")
            100.

(** [response.choices[0].message.content.strip()] *)
Definition full_response_of (r : response) : outcome pystr :=
  c ← getitem (choices r) 0;
  match message_content c with
  | Some content => Return (strip content)
  | None =>
      Raise (AttributeError (py "'NoneType' object has no attribute 'strip'"))
  end.

(** [classify_image(self, base64_image)].  [create] is what
    [self.client.chat.completions.create] does with a request: it returns
    a reply or raises. *)
Definition classify_image
    (create : groq_client -> request -> outcome response)
    (self : classifier) (base64_image : pystr) : io (pystr * pystr) :=
  if negb (truth base64_image) then
    _ ← emit (StError (py "Empty image input"));
    mret fallback
  else
    try_except
      (let req := build_request base64_image in
       _ ← emit (GroqCreate req);
       response ← lift (create (client self) req);
       full_response ← lift (full_response_of response);
       _ ← emit (Print (py "full_response ....................... "
                         ++ full_response));
       lift (clean_response full_response))
      "Exception"
      (fun e =>
         _ ← emit (StError (py "Classification error: " ++ exn_msg e));
         mret fallback).

End WasteClassifier.
Import WasteClassifier.

(** ** The script *)

(** A value held in [st.session_state]. *)
Inductive value : Type :=
| VNone
| VStr (s : pystr)
| VFrame (f : frame).

(** Everything [main] reads from outside the program. *)
Record world := MkWorld {
  os_environ : gmap pystr pystr;
  dotenv_file : gmap pystr pystr;
  imencode : frame -> list byte;
  cvtColor : frame -> frame;
  create : groq_client -> request -> outcome response;
  cap_isOpened : bool;
  cap_read : option frame;
  classify_button : bool;
  stop_button : bool
}.

(** [if key not in st.session_state: st.session_state[key] = None] *)
Definition setdefault_none (key : string) (ss : gmap string value)
  : gmap string value :=
  match ss !! key with
  | Some _ => ss
  | None => <[key := VNone]> ss
  end.

Definition cv2_error : exn :=
  MkExn ["error"; "Exception"; "BaseException"]%string
        (py "img is not a numpy array").

(** The classification step of [main]. *)
Definition classify_step (w : world) (classifier : WasteClassifier.classifier)
    (ss : gmap string value) : io (gmap string value) :=
  match ss !! "current_frame" with
  | Some VNone | None => mret ss
  | Some (VFrame f) =>
      base64_image ← lift (encode_image (imencode w) f);
      r ← classify_image (create w) classifier base64_image;
      let ss := <["handling_advice" := VStr (snd r)]>
                  (<["classification" := VStr (fst r)]> ss) in
      _ ← emit (StSuccess (py "Best Case Classification: " ++ fst r));
      _ ← emit (StInfo (py "Handling Advice: " ++ snd r));
      mret ss
  | Some (VStr _) => raise cv2_error
  end.

(** [main()], one run of the script, from the session state of the
    previous run to the one it leaves. *)
Definition main (w : world) (ss : gmap string value)
  : io (gmap string value) :=
  _ ← emit (StSetPageConfig (py "Waste Classifier") (py ":recycle:"));
  _ ← emit (StTitle (127757 :: py " Real-Time Waste Classification"));
  classifier ← try_except (init (os_environ w) (dotenv_file w) None)
                          "ValueError" (fun _ => st_stop);
  let ss := setdefault_none "classification" ss in
  let ss := setdefault_none "handling_advice" ss in
  let ss := setdefault_none "current_frame" ss in
  _ ← emit (CapOpen 0);
  if negb (cap_isOpened w) then
    _ ← emit (StError (py "Unable to access webcam"));
    mret ss
  else
    _ ← emit StEmpty;
    _ ← emit StEmpty;
    _ ← emit StEmpty;
    _ ← emit (StButton (py "Classify Current Frame"));
    _ ← emit (StButton (py "Stop Webcam"));
    _ ← emit CapRead;
    ss ← match cap_read w with
         | Some f =>
             _ ← emit (StImage (cvtColor w f));
             mret (<["current_frame" := VFrame f]> ss)
         | None => mret ss
         end;
    ss ← (if classify_button w then classify_step w classifier ss
          else mret ss);
    _ ← (if stop_button w then
           _ ← emit CapRelease;
           emit (StWarning (py "Webcam feed stopped"))
         else mret tt);
    mret ss.


(** ** The claims of the specification, in its own words *)


(** The specification's "non-empty lines" of a raw response. *)
Definition spec_nonempty_lines (raw_text : pystr) : list pystr :=
  List.filter truth (split 10 raw_text).

(** What the specification says [parse] returns on a response with at
    least two non-empty lines: those two lines, cleaned. *)
Definition spec_parse_two (raw_text : pystr) : pystr * pystr :=
  (clean_line (nth 0 (spec_nonempty_lines raw_text) []),
   clean_line (nth 1 (spec_nonempty_lines raw_text) [])).

(** Whether a trace holds a call of the remote client, the creation of a
    client, or an interactive widget or camera access. *)
Definition is_remote_call (ev : event) : bool :=
  match ev with GroqCreate _ => true | _ => false end.
Definition is_client_creation (ev : event) : bool :=
  match ev with GroqInit _ => true | _ => false end.

(** The characters [lstrip('0123456789. ')] removes. *)
Definition numbering : pystr := py "0123456789. ".

(** Whether a string starts with a character satisfying [p]. *)
Definition starts_with_any (p : N -> bool) (s : pystr) : bool :=
  match s with c :: _ => p c | [] => false end.

(** Responses used as examples. *)
Definition ewaste_blank : pystr := py "E-waste" ++ nl ++ nl.
Definition blank_between : pystr := py "A" ++ nl ++ nl ++ py "B".
Definition organic : pystr :=
  py "Organic" ++ nl ++ py "Compost at municipal facility.".
Definition numbered : pystr := py "1. Plastic" ++ nl ++ py "2. Recycle bin".
Definition banana : pystr := py "Banana" ++ nl ++ py "Eat it".

(** A failure of the remote service, a client object and an encoded image
    used as examples. *)
Definition RateLimitError : exn :=
  MkExn ["RateLimitError"; "APIStatusError"; "APIError"; "GroqError";
         "Exception"; "BaseException"]%string
        (py "Error code: 429").
Definition some_classifier : classifier := MkClassifier (MkGroq (py "gsk_key")).
Definition some_image : pystr := py "/9j/4AAQ".


(** A process with a key in its environment, the camera delivering one
    frame, both buttons pressed, and a remote model that answers with a
    numbered reply. *)
Definition keyed_world : world :=
  MkWorld {[ py "GROQ_API_KEY" := py "gsk_key" ]} ∅
          (fun f => pixels f) (fun f => f)
          (fun _ _ => Return (MkResponse [MkChoice (Some numbered)]))
          true (Some (MkFrame 1 1 [x4d; x61; x6e])) true true.

(** Whether an event is the call [cap.release()]. *)
Definition is_release (ev : event) : bool :=
  match ev with CapRelease => true | _ => false end.


(** Worlds used as examples: a key in the environment, the camera
    delivering a frame and no button pressed; a key in the [.env] file
    only and the camera closed; a key in the [.env] file only, both
    buttons pressed and the remote service failing. *)
Definition idle_world : world :=
  MkWorld {[ py "GROQ_API_KEY" := py "gsk_key" ]} ∅
          (fun f => pixels f) (fun f => f)
          (fun _ _ => Raise RateLimitError)
          true (Some (MkFrame 1 1 [x4d; x61; x6e])) false false.
Definition dotenv_world : world :=
  MkWorld ∅ {[ py "GROQ_API_KEY" := py "gsk_file" ]}
          (fun f => pixels f) (fun f => f)
          (fun _ _ => Raise RateLimitError) false None true true.
Definition failing_stop_world : world :=
  MkWorld ∅ {[ py "GROQ_API_KEY" := py "gsk_file" ]}
          (fun f => pixels f) (fun f => f)
          (fun _ _ => Raise RateLimitError)
          true (Some (MkFrame 1 1 [x4d; x61; x6e])) true true.

(** * Properties *)

(** ** The library functions on known values *)

Example strip_unicode_space :
  strip ([160; 9] ++ py "Glass" ++ [8195; 13; 10]) = py "Glass".
Proof. reflexivity. Qed.

Example lstrip_stops_at_other_chars :
  clean_line (py " 12. 3 bins.  ") = py "bins.".
Proof. reflexivity. Qed.

Example split_keeps_empty_pieces :
  split 10 (nl ++ py "a" ++ nl ++ nl) = [[]; py "a"; []; []].
Proof. reflexivity. Qed.

Example b64encode_Man :
  List.map Byte.to_N (Base64.b64encode [x4d; x61; x6e]) = py "TWFu"
  /\ List.map Byte.to_N (Base64.b64encode [x4d; x61]) = py "TWE="
  /\ List.map Byte.to_N (Base64.b64encode [x4d]) = py "TQ=="
  /\ List.map Byte.to_N (Base64.b64encode [xff; xd8; xff; xe0]) = py "/9j/4A==".
Proof. repeat split; reflexivity. Qed.

Example b64decode_rejects :
  Base64.b64decode (py "TWF") = Raise Base64.incorrect
  /\ Base64.b64decode (py "TW=u") = Raise Base64.incorrect
  /\ Base64.b64decode (py "TWFu") = Return [x4d; x61; x6e].
Proof. repeat split; reflexivity. Qed.

Example utf8_decode_values :
  Utf8.decode [xf0; x9f; x8c; x8d; x20; xc3; xa9] = Return [127757; 32; 233]
  /\ Utf8.decode [xc0; x80] = Raise Utf8.invalid
  /\ Utf8.decode [xed; xa0; x80] = Raise Utf8.invalid.
Proof. repeat split; reflexivity. Qed.

(** ** Splitting into lines *)

Section Split.

Variable sep : N.

Lemma split_not_nil s : split sep s <> [].
Proof.
  destruct s as [|c s]; simpl; [discriminate|].
  destruct (c =? sep); [discriminate|].
  destruct (split sep s); discriminate.
Qed.

Lemma split_no_sep s : sep ∉ s -> split sep s = [s].
Proof.
  induction s as [|c s IH]; intros Hs; [reflexivity|].
  apply not_elem_of_cons in Hs as [Hc Hs]. simpl.
  destruct (N.eqb_spec c sep) as [->|_]; [congruence|].
  now rewrite IH.
Qed.

Lemma split_app_sep a b :
  sep ∉ a -> split sep (a ++ sep :: b) = a :: split sep b.
Proof.
  induction a as [|c a IH]; intros Ha; simpl.
  - now rewrite N.eqb_refl.
  - apply not_elem_of_cons in Ha as [Hc Ha].
    destruct (N.eqb_spec c sep) as [->|_]; [congruence|].
    now rewrite IH.
Qed.

Lemma length_split s :
  length (split sep s) = S (count_occ N.eq_dec s sep).
Proof.
  induction s as [|c s IH]; [reflexivity|]. simpl.
  destruct (N.eqb_spec c sep) as [->|Hne].
  - destruct (N.eq_dec sep sep); [|congruence]. simpl. now rewrite IH.
  - destruct (N.eq_dec c sep); [congruence|].
    destruct (split sep s) eqn:E; simpl in *; [discriminate|assumption].
Qed.

Lemma split_one_line s :
  (length (split sep s) < 2)%nat <-> sep ∉ s.
Proof.
  rewrite length_split, list_elem_of_In. split.
  - intros H. apply (count_occ_not_In N.eq_dec). lia.
  - intros H. apply (count_occ_not_In N.eq_dec) in H. lia.
Qed.

(** A text with a separator starts with two pieces. *)
Lemma split_two_lines s :
  sep ∈ s ->
  exists l0 l1 rest, split sep s = l0 :: l1 :: rest.
Proof.
  intros H. assert (L : (2 <= length (split sep s))%nat).
  { destruct (le_lt_dec 2 (length (split sep s))) as [|Hlt]; [assumption|].
    apply split_one_line in Hlt. contradiction. }
  destruct (split sep s) as [|l0 [|l1 rest]]; simpl in L; try lia.
  eauto.
Qed.
End Split.

(** ** Stripping *)

Section Strip.

Variable p : N -> bool.

Lemma lstrip_with_spec s :
  exists pre,
    s = pre ++ lstrip_with p s
    /\ Forall (fun c => p c = true) pre
    /\ starts_with_any p (lstrip_with p s) = false.
Proof.
  induction s as [|c s (pre & E & F & H)].
  - exists []. repeat split; constructor.
  - simpl. destruct (p c) eqn:Pc.
    + exists (c :: pre). repeat split; [simpl; congruence | now constructor | assumption].
    + exists []. repeat split; [constructor | exact Pc].
Qed.

Lemma rstrip_with_spec s :
  exists suf,
    s = rstrip_with p s ++ suf
    /\ Forall (fun c => p c = true) suf
    /\ starts_with_any p (rev (rstrip_with p s)) = false.
Proof.
  unfold rstrip_with.
  destruct (lstrip_with_spec (rev s)) as (pre & E & F & H).
  exists (rev pre). repeat split.
  - rewrite <- rev_app_distr, <- E. symmetry. apply rev_involutive.
  - now apply Forall_rev.
  - now rewrite rev_involutive.
Qed.

(** Stripping on the right keeps the first character. *)
Lemma rstrip_with_head s :
  starts_with_any p s = false ->
  starts_with_any p (rstrip_with p s) = false.
Proof.
  intros H. destruct (rstrip_with_spec s) as (suf & E & _ & _).
  destruct (rstrip_with p s) as [|c r]; [reflexivity|].
  rewrite E in H. exact H.
Qed.
End Strip.

Lemma strip_spec line :
  exists ws1 ws2,
    line = ws1 ++ strip line ++ ws2
    /\ Forall (fun c => isspace c = true) ws1
    /\ Forall (fun c => isspace c = true) ws2
    /\ starts_with_any isspace (strip line) = false
    /\ starts_with_any isspace (rev (strip line)) = false.
Proof.
  unfold strip.
  destruct (lstrip_with_spec isspace line) as (ws1 & E1 & F1 & H1).
  destruct (rstrip_with_spec isspace (lstrip_with isspace line))
    as (ws2 & E2 & F2 & H2).
  exists ws1, ws2. repeat split; try assumption.
  - now rewrite <- E2.
  - now apply rstrip_with_head.
Qed.

Lemma clean_line_spec line :
  exists ws1 num ws2,
    line = ws1 ++ (num ++ clean_line line) ++ ws2
    /\ strip line = num ++ clean_line line
    /\ Forall (fun c => isspace c = true) ws1
    /\ Forall (fun c => isspace c = true) ws2
    /\ Forall (fun c => char_in numbering c = true) num
    /\ starts_with_any isspace (num ++ clean_line line) = false
    /\ starts_with_any isspace (rev (num ++ clean_line line)) = false
    /\ starts_with_any (char_in numbering) (clean_line line) = false.
Proof.
  destruct (strip_spec line) as (ws1 & ws2 & E & F1 & F2 & H1 & H2).
  destruct (lstrip_with_spec (char_in numbering) (strip line))
    as (num & En & Fn & Hn).
  change (lstrip_with (char_in numbering) (strip line))
    with (clean_line line) in *.
  exists ws1, num, ws2. rewrite <- En. repeat split; assumption.
Qed.

(** ** The response parser *)

(** The parser on a response whose first two lines are known. *)
Lemma clean_response_two_lines raw l0 l1 rest :
  split 10 raw = l0 :: l1 :: rest ->
  clean_response raw = Return (clean_line l0, clean_line l1).
Proof.
  intros E. unfold clean_response, cleaned_lines. now rewrite E.
Qed.

(** The parser on a response of a single line. *)
Lemma clean_response_one_line raw :
  (length (split 10 raw) < 2)%nat -> clean_response raw = Return fallback.
Proof.
  intros L. unfold clean_response, cleaned_lines.
  rewrite length_map.
  destruct (Nat.leb_spec 2 (length (split 10 raw))); [lia|reflexivity].
Qed.

(** The guard on the number of lines makes both index operations safe. *)
Lemma clean_response_total raw :
  exists category advice, clean_response raw = Return (category, advice).
Proof.
  destruct (le_lt_dec 2 (length (split 10 raw))) as [L|L].
  - destruct (split 10 raw) as [|l0 [|l1 rest]] eqn:E; simpl in L; try lia.
    exists (clean_line l0), (clean_line l1).
    now apply (clean_response_two_lines raw l0 l1 rest).
  - exists (fst fallback), (snd fallback).
    now apply clean_response_one_line.
Qed.




(** C2, as the specification states it, fails: ["A\n\nB"] has the two
    non-empty lines [A] and [B], and the parser returns [("A", "")],
    the blank second line standing for the advice. *)
Lemma first_two_nonempty_lines_refuted :
  (2 <= length (spec_nonempty_lines blank_between))%nat
  /\ spec_parse_two blank_between = (py "A", py "B")
  /\ clean_response blank_between = Return (py "A", [])
  /\ clean_response blank_between <> Return (spec_parse_two blank_between).
Proof.
  split; [vm_compute; lia|]. do 2 (split; [reflexivity|]).
  vm_compute. discriminate.
Qed.

(** C2, amended: on a response of at least two lines, empty or not, the
    parser returns the first two lines, each trimmed of surrounding
    whitespace and then of its leading digits, dots and spaces. *)
Theorem parse_first_two_lines raw :
  (2 <= length (split 10 raw))%nat ->
  clean_response raw
  = Return (clean_line (nth 0 (split 10 raw) []),
            clean_line (nth 1 (split 10 raw) [])).
Proof.
  intros L.
  destruct (split 10 raw) as [|l0 [|l1 rest]] eqn:E; simpl in L; try lia.
  now apply (clean_response_two_lines raw l0 l1 rest).
Qed.

Lemma parse_first_two_lines_witness :
  (2 <= length (split 10 organic))%nat
  /\ clean_response organic
     = Return (py "Organic", py "Compost at municipal facility.").
Proof.
  assert (L : (2 <= length (split 10 organic))%nat) by (vm_compute; lia).
  exact (conj L (parse_first_two_lines organic L)).
Defined.



(** C4: every cleaned line is the line without its surrounding
    whitespace and then without its leading run of digits, dots and
    spaces; the lines are cleaned one by one; and the numbered response
    ["1. Plastic\n2. Recycle bin"] is parsed to [("Plastic", "Recycle bin")]. *)
Theorem clean_line_removes_numbering :
  (forall line,
      clean_line line = lstrip (py "0123456789. ") (strip line)
      /\ exists ws1 num ws2,
           line = ws1 ++ (num ++ clean_line line) ++ ws2
           /\ strip line = num ++ clean_line line
           /\ Forall (fun c => isspace c = true) ws1
           /\ Forall (fun c => isspace c = true) ws2
           /\ Forall (fun c => char_in numbering c = true) num
           /\ starts_with_any isspace (strip line) = false
           /\ starts_with_any isspace (rev (strip line)) = false
           /\ starts_with_any (char_in numbering) (clean_line line) = false)
  /\ (forall raw, cleaned_lines raw = List.map clean_line (split 10 raw))
  /\ clean_response numbered = Return (py "Plastic", py "Recycle bin").
Proof.
  split; [|split; reflexivity].
  intros line. split; [reflexivity|].
  destruct (clean_line_spec line)
    as (ws1 & num & ws2 & E & Es & F1 & F2 & Fn & H1 & H2 & Hn).
  exists ws1, num, ws2. rewrite Es. repeat split; assumption.
Qed.

(** C5: the parser does not look the category up in the vocabulary: the
    response ["Banana\nEat it"] has two lines, its first cleaned line is
    none of the 16 entries, and it is returned as the category. *)
Theorem parse_skips_vocabulary_check :
  exists raw category advice,
    (2 <= length (split 10 raw))%nat
    /\ length VALID_CATEGORIES = 16%nat
    /\ clean_response raw = Return (category, advice)
    /\ category = clean_line (nth 0 (split 10 raw) [])
    /\ category ∉ VALID_CATEGORIES.
Proof.
  exists banana, (py "Banana"), (py "Eat it").
  split; [vm_compute; lia|]. do 3 (split; [reflexivity|]).
  vm_compute. intros H.
  repeat (apply elem_of_cons in H as [H|H]; [discriminate H|]).
  now apply elem_of_nil in H.
Qed.

(** ** The remote call *)

Lemma truth_cons s : truth s = true -> exists c r, s = c :: r.
Proof. destruct s as [|c r]; [discriminate|eauto]. Qed.

(** A reply without choices or without content raises an [Exception]. *)
Lemma full_response_of_raises r e :
  full_response_of r = Raise e -> isinstance e "Exception" = true.
Proof.
  unfold full_response_of.
  destruct r as [[|[[content|]] rest]]; simpl; intros [= <-]; reflexivity.
Qed.

(** X8: Whatever the remote client does, [classify_image] either returns a
    pair or lets through an exception of the client that is not an
    [Exception]. *)
Lemma classify_image_outcome create self base64_image :
  (exists p, snd (classify_image create self base64_image) = Return p)
  \/ (exists e,
        snd (classify_image create self base64_image) = Raise e
        /\ isinstance e "Exception" = false
        /\ create (client self) (build_request base64_image) = Raise e).
Proof.
  unfold classify_image. destruct base64_image as [|c img]; simpl.
  { left. eexists. reflexivity. }
  destruct (create (client self) (build_request (c :: img))) as [r|e] eqn:E;
    simpl.
  - left. destruct (full_response_of r) as [full|e] eqn:F; simpl.
    + destruct (clean_response_total full) as (cat & adv & ->). simpl. eauto.
    + rewrite (full_response_of_raises r e F). eauto.
  - destruct (isinstance e "Exception") eqn:I; simpl; eauto.
Qed.


(** The reply is stripped as a whole before it is parsed, so that the
    reply ["E-waste\n\n"] is parsed as the single line ["E-waste"]. *)
Lemma classify_image_trailing_blank_lines :
  snd (classify_image
         (fun _ _ => Return (MkResponse [MkChoice (Some ewaste_blank)]))
         some_classifier some_image)
  = Return fallback.
Proof. reflexivity. Qed.

(** A reply without choices, or whose content is [None], is masked too. *)
Lemma classify_image_malformed_reply :
  snd (classify_image (fun _ _ => Return (MkResponse []))
                      some_classifier some_image) = Return fallback
  /\ snd (classify_image (fun _ _ => Return (MkResponse [MkChoice None]))
                         some_classifier some_image) = Return fallback.
Proof. split; reflexivity. Qed.





(** ** The prompt *)

(** C7: the vocabulary has 16 distinct entries; joined by [", "] they
    read ["Recycling, Organic, ..., Toxic Waste"], each entry once, in
    order, a comma and a space between neighbours; the fourth line of the
    prompt ends with that enumeration; each entry starts at exactly one
    position of the enumeration, and of the whole prompt; and this prompt
    is the text of every request [classify_image] sends. *)
Theorem prompt_enumerates_vocabulary :
  length VALID_CATEGORIES = 16%nat
  /\ NoDup VALID_CATEGORIES
  /\ join (py ", ") VALID_CATEGORIES
     = py "Recycling, Organic, Trash, Electronics, Miscellaneous, Plastic, Metal, Glass, Paper, Textiles, Batteries, Hazardous Waste, Food Waste, Bulky Waste, E-waste, Toxic Waste"
  /\ nth 3 (split 10 prompt) []
     = indent
       ++ py "- SELECT EXACTLY ONE waste category from this PRECISE list: Recycling, Organic, Trash, Electronics, Miscellaneous, Plastic, Metal, Glass, Paper, Textiles, Batteries, Hazardous Waste, Food Waste, Bulky Waste, E-waste, Toxic Waste"
  /\ (exists before after,
         prompt = before ++ join (py ", ") VALID_CATEGORIES ++ after)
  /\ Forall (fun c => occurrences c (join (py ", ") VALID_CATEGORIES) = 1%nat)
            VALID_CATEGORIES
  /\ Forall (fun c => occurrences c prompt = 1%nat) VALID_CATEGORIES
  /\ (forall base64_image, req_text (build_request base64_image) = prompt)
  /\ (forall create self c image,
         exists rest,
           fst (classify_image create self (c :: image))
           = GroqCreate (build_request (c :: image)) :: rest).
Proof.
  split; [reflexivity|]. split; [compute_done|].
  split; [vm_compute; reflexivity|]. split; [vm_compute; reflexivity|].
  split.
  { exists (nl ++ indent ++ py "EXPERT WASTE CLASSIFICATION TASK: Analyze the image and follow these STRICT guidelines:"
            ++ nl ++ indent ++ py "CLASSIFICATION REQUIREMENTS:"
            ++ nl ++ indent
            ++ py "- SELECT EXACTLY ONE waste category from this PRECISE list: ").
    eexists. vm_compute. reflexivity. }
  split; [compute_done|]. split; [compute_done|].
  split; [reflexivity|].
  intros create self c image. unfold classify_image. simpl.
  destruct (create _ _) as [r|e]; simpl.
  - destruct (full_response_of r) as [full|e]; simpl.
    + destruct (clean_response_total full) as (cat & adv & ->). simpl.
      eexists. reflexivity.
    + destruct (isinstance e "Exception"); simpl; eexists; reflexivity.
  - destruct (isinstance e "Exception"); simpl; eexists; reflexivity.
Qed.

(** ** Start-up *)



(** With a key the script goes on: it creates the client, calls the
    remote model on the encoded frame and stores the parsed pair. *)
Example main_classifies_with_key :
  match snd (main keyed_world ∅) with
  | Return ss =>
      ss !! "classification" = Some (VStr (py "Plastic"))
      /\ ss !! "handling_advice" = Some (VStr (py "Recycle bin"))
  | Raise _ => False
  end
  /\ existsb is_client_creation (fst (main keyed_world ∅)) = true
  /\ existsb is_remote_call (fst (main keyed_world ∅)) = true.
Proof. vm_compute. repeat split; reflexivity. Qed.


(** ** The image encoder *)

Module Base64Facts.
Import Base64.

Ltac Zify.zify_post_hook ::= Z.to_euclidean_division_equations.

(** Every group of six bits is sent to an ASCII character of the
    alphabet, other than the padding, that stands for it. *)
Lemma enc6_dec6 i :
  i < 64 ->
  dec6 (Byte.to_N (enc6 i)) = Some i
  /\ Byte.to_N (enc6 i) < 128
  /\ (Byte.to_N (enc6 i) =? pad) = false.
Proof.
  intros Hi.
  assert (T : forallb
                (fun j => match dec6 (Byte.to_N (enc6 j)) with
                          | Some k => (k =? j) && (Byte.to_N (enc6 j) <? 128)
                                      && negb (Byte.to_N (enc6 j) =? pad)
                          | None => false
                          end)
                (List.map N.of_nat (seq 0 64)) = true) by (vm_compute; reflexivity).
  rewrite forallb_forall in T. specialize (T i).
  assert (I : In i (List.map N.of_nat (seq 0 64))).
  { apply in_map_iff. exists (N.to_nat i). split; [apply N2Nat.id|].
    apply in_seq. lia. }
  apply T in I. destruct (dec6 (Byte.to_N (enc6 i))) as [k|]; [|discriminate].
  apply andb_prop in I as [I Hp]. apply andb_prop in I as [Hk Hlt].
  apply N.eqb_eq in Hk. apply N.ltb_lt in Hlt. apply negb_true_iff in Hp.
  subst k. auto.
Qed.

Lemma enc6_ascii i : i < 64 -> Byte.to_N (enc6 i) < 128.
Proof. intros Hi. now apply enc6_dec6. Qed.

Lemma byte_of_to_N x : byte_of (Byte.to_N x) = Return x.
Proof. unfold byte_of. now rewrite Byte.of_to_N. Qed.

Lemma to_N_lt x : Byte.to_N x < 256.
Proof. pose proof (Byte.to_N_bounded x). lia. Qed.

(** Induction on a list of bytes, three at a time. *)
Lemma list_ind3 {A} (P : list A -> Prop) :
  P [] -> (forall x, P [x]) -> (forall x y, P [x; y]) ->
  (forall x y z l, P l -> P (x :: y :: z :: l)) ->
  forall l, P l.
Proof.
  intros H0 H1 H2 H3.
  fix IH 1. intros [|x [|y [|z l]]];
    [apply H0 | apply H1 | apply H2 | apply H3, IH].
Qed.

(** The encoder writes ASCII only. *)
Lemma b64encode_ascii bs :
  Forall (fun b => Byte.to_N b < 128) (b64encode bs).
Proof.
  induction bs as [|x|x y|x y z l IH] using list_ind3;
    cbn [b64encode];
    try pose proof (to_N_lt x); try pose proof (to_N_lt y);
    try pose proof (to_N_lt z);
    repeat (constructor;
            [first [apply enc6_ascii; lia | vm_compute; reflexivity]|]);
    auto.
Qed.

(** Decoding ASCII bytes as UTF-8 gives their code points. *)
Lemma utf8_decode_ascii bs :
  Forall (fun b => Byte.to_N b < 128) bs ->
  Utf8.decode bs = Return (List.map Byte.to_N bs).
Proof.
  induction 1 as [|b bs Hb _ IH]; [reflexivity|].
  cbn [Utf8.decode List.map]. apply N.ltb_lt in Hb. rewrite Hb, IH. reflexivity.
Qed.

(** Decoding what the encoder wrote gives the bytes back. *)
Lemma b64decode_b64encode bs :
  b64decode (List.map Byte.to_N (b64encode bs)) = Return bs.
Proof.
  induction bs as [|x|x y|x y z l IH] using list_ind3.
  - reflexivity.
  - pose proof (to_N_lt x) as Hx.
    destruct (enc6_dec6 (Byte.to_N x / 4)) as (D1 & _ & _); [lia|].
    destruct (enc6_dec6 (Byte.to_N x mod 4 * 16)) as (D2 & _ & _); [lia|].
    cbn [b64encode List.map b64decode]. rewrite D1, D2.
    change (Byte.to_N pad_byte =? pad) with true. cbn [andb].
    assert (E1 : Byte.to_N x / 4 * 4 + Byte.to_N x mod 4 * 16 / 16
                 = Byte.to_N x) by lia.
    rewrite E1, byte_of_to_N. reflexivity.
  - pose proof (to_N_lt x) as Hx. pose proof (to_N_lt y) as Hy.
    destruct (enc6_dec6 (Byte.to_N x / 4)) as (D1 & _ & _); [lia|].
    destruct (enc6_dec6 (Byte.to_N x mod 4 * 16 + Byte.to_N y / 16))
      as (D2 & _ & _); [lia|].
    destruct (enc6_dec6 (Byte.to_N y mod 16 * 4)) as (D3 & _ & P3); [lia|].
    cbn [b64encode List.map b64decode]. rewrite D1, D2, P3, D3.
    change (Byte.to_N pad_byte =? pad) with true. cbn [andb].
    assert (E1 : Byte.to_N x / 4 * 4
                 + (Byte.to_N x mod 4 * 16 + Byte.to_N y / 16) / 16
                 = Byte.to_N x) by lia.
    assert (E2 : (Byte.to_N x mod 4 * 16 + Byte.to_N y / 16) mod 16 * 16
                 + Byte.to_N y mod 16 * 4 / 4
                 = Byte.to_N y) by lia.
    rewrite E1, E2, !byte_of_to_N. reflexivity.
  - pose proof (to_N_lt x) as Hx. pose proof (to_N_lt y) as Hy.
    pose proof (to_N_lt z) as Hz.
    destruct (enc6_dec6 (Byte.to_N x / 4)) as (D1 & _ & _); [lia|].
    destruct (enc6_dec6 (Byte.to_N x mod 4 * 16 + Byte.to_N y / 16))
      as (D2 & _ & _); [lia|].
    destruct (enc6_dec6 (Byte.to_N y mod 16 * 4 + Byte.to_N z / 64))
      as (D3 & _ & P3); [lia|].
    destruct (enc6_dec6 (Byte.to_N z mod 64)) as (D4 & _ & P4); [lia|].
    cbn [b64encode List.map b64decode]. rewrite D1, D2, P3, D3, P4, D4.
    cbn [andb].
    assert (E1 : Byte.to_N x / 4 * 4
                 + (Byte.to_N x mod 4 * 16 + Byte.to_N y / 16) / 16
                 = Byte.to_N x) by lia.
    assert (E2 : (Byte.to_N x mod 4 * 16 + Byte.to_N y / 16) mod 16 * 16
                 + (Byte.to_N y mod 16 * 4 + Byte.to_N z / 64) / 4
                 = Byte.to_N y) by lia.
    assert (E3 : (Byte.to_N y mod 16 * 4 + Byte.to_N z / 64) mod 4 * 64
                 + Byte.to_N z mod 64
                 = Byte.to_N z) by lia.
    rewrite E1, E2, E3, !byte_of_to_N.
    fold (List.map Byte.to_N (b64encode l)). rewrite IH. reflexivity.
Qed.
End Base64Facts.

(** C9: [encode_image] returns a text, and decoding that text as Base64
    gives exactly the bytes the JPEG compressor produced for the frame. *)
Theorem encode_image_round_trip (imencode : frame -> list byte) (f : frame) :
  exists text,
    encode_image imencode f = Return text
    /\ text = List.map Byte.to_N (Base64.b64encode (imencode f))
    /\ Base64.b64decode text = Return (imencode f).
Proof.
  exists (List.map Byte.to_N (Base64.b64encode (imencode f))).
  split; [|split; [reflexivity|]].
  - unfold encode_image.
    apply Base64Facts.utf8_decode_ascii, Base64Facts.b64encode_ascii.
  - apply Base64Facts.b64decode_b64encode.
Qed.

(** * Further properties *)

(** ** The parser: what it ignores and what its results look like *)

Section StripMore.

Variable p : N -> bool.

Lemma lstrip_with_all ws l :
  Forall (fun c => p c = true) ws ->
  lstrip_with p (ws ++ l) = lstrip_with p l.
Proof.
  induction 1 as [|c ws Hc _ IH]; [reflexivity|].
  simpl. now rewrite Hc.
Qed.

Lemma rstrip_with_all l ws :
  Forall (fun c => p c = true) ws ->
  rstrip_with p (l ++ ws) = rstrip_with p l.
Proof.
  intros F. unfold rstrip_with. rewrite rev_app_distr.
  rewrite lstrip_with_all; [reflexivity|]. now apply Forall_rev.
Qed.

(** Whitespace after a text does not change what is left of it once both
    ends are stripped. *)
Lemma strip_both_app l ws :
  Forall (fun c => p c = true) ws ->
  rstrip_with p (lstrip_with p (l ++ ws)) = rstrip_with p (lstrip_with p l).
Proof.
  intros F. induction l as [|c l IH].
  - simpl. replace ws with (ws ++ []) by apply app_nil_r.
    now rewrite lstrip_with_all.
  - simpl. destruct (p c); [exact IH|].
    now apply (rstrip_with_all (c :: l)).
Qed.

(** What stripping on the left keeps comes from the text. *)
Lemma lstrip_with_elem c s : c ∈ lstrip_with p s -> c ∈ s.
Proof.
  destruct (lstrip_with_spec p s) as (pre & E & _ & _).
  intros H. rewrite E. apply elem_of_app. now right.
Qed.

Lemma rstrip_with_elem c s : c ∈ rstrip_with p s -> c ∈ s.
Proof.
  destruct (rstrip_with_spec p s) as (suf & E & _ & _).
  intros H. rewrite E. apply elem_of_app. now left.
Qed.

End StripMore.

Lemma clean_line_elem c line : c ∈ clean_line line -> c ∈ line.
Proof.
  intros H. unfold clean_line, lstrip, strip in H.
  apply lstrip_with_elem, rstrip_with_elem, lstrip_with_elem in H. exact H.
Qed.

(** No piece of a split text holds the separator. *)
Lemma split_piece_no_sep sep s piece :
  piece ∈ split sep s -> sep ∉ piece.
Proof.
  revert piece. induction s as [|c s IH]; intros piece H; simpl in H.
  - apply list_elem_of_singleton in H as ->. apply not_elem_of_nil.
  - destruct (N.eqb_spec c sep) as [->|Hne].
    + apply elem_of_cons in H as [->|H]; [apply not_elem_of_nil|now apply IH].
    + destruct (split sep s) as [|p0 ps] eqn:E.
      * apply list_elem_of_singleton in H as ->.
        apply not_elem_of_cons. split; [congruence|apply not_elem_of_nil].
      * apply elem_of_cons in H as [->|H].
        -- apply not_elem_of_cons. split; [congruence|].
           apply IH. now left.
        -- apply IH. now right.
Qed.

(** A cleaned line does not start with a digit, a dot or a space, and
    does not end with whitespace. *)
Lemma clean_line_shape line :
  starts_with_any (char_in numbering) (clean_line line) = false
  /\ starts_with_any isspace (rev (clean_line line)) = false.
Proof.
  destruct (clean_line_spec line)
    as (ws1 & num & ws2 & _ & _ & _ & _ & _ & _ & H2 & Hn).
  split; [exact Hn|].
  rewrite rev_app_distr in H2.
  destruct (rev (clean_line line)) as [|c r]; [reflexivity|exact H2].
Qed.

(** The parser returns the cleaned first two lines or the fallback pair. *)
Lemma clean_response_cases raw :
  clean_response raw = Return fallback
  \/ exists l0 l1 rest,
       split 10 raw = l0 :: l1 :: rest
       /\ clean_response raw = Return (clean_line l0, clean_line l1).
Proof.
  destruct (split 10 raw) as [|l0 [|l1 rest]] eqn:E.
  - left. apply clean_response_one_line. rewrite E. simpl. lia.
  - left. apply clean_response_one_line. rewrite E. simpl. lia.
  - right. exists l0, l1, rest. split; [reflexivity|].
    now apply (clean_response_two_lines raw l0 l1 rest).
Qed.

(** X1: Only the first two lines of a response count: whatever follows the
    second line is ignored. *)
Theorem clean_response_ignores_later_lines l0 l1 rest :
  10 ∉ l0 -> 10 ∉ l1 ->
  clean_response (l0 ++ nl ++ l1 ++ nl ++ rest)
  = Return (clean_line l0, clean_line l1)
  /\ clean_response (l0 ++ nl ++ l1 ++ nl ++ rest)
     = clean_response (l0 ++ nl ++ l1).
Proof.
  intros H0 H1.
  assert (A : clean_response (l0 ++ nl ++ l1 ++ nl ++ rest)
              = Return (clean_line l0, clean_line l1)).
  { apply (clean_response_two_lines _ l0 l1 (split 10 rest)).
    change (l0 ++ nl ++ l1 ++ nl ++ rest)
      with (l0 ++ 10 :: (l1 ++ 10 :: rest)).
    now rewrite !split_app_sep. }
  split; [exact A|]. rewrite A. symmetry.
  apply (clean_response_two_lines _ l0 l1 []).
  change (l0 ++ nl ++ l1) with (l0 ++ 10 :: l1).
  now rewrite split_app_sep, split_no_sep.
Qed.

Lemma clean_response_ignores_later_lines_witness :
  clean_response (py "Glass" ++ nl ++ py "Bottle bank" ++ nl
                  ++ py "Note: rinse first")
  = Return (py "Glass", py "Bottle bank").
Proof.
  assert (H0 : 10 ∉ py "Glass") by compute_done.
  assert (H1 : 10 ∉ py "Bottle bank") by compute_done.
  exact (proj1 (clean_response_ignores_later_lines
                  (py "Glass") (py "Bottle bank") (py "Note: rinse first")
                  H0 H1)).
Defined.

(** X2: Neither the category nor the advice the parser returns holds a
    newline, on any response. *)
Theorem clean_response_single_lines raw category advice :
  clean_response raw = Return (category, advice) ->
  (10 ∉ category) /\ (10 ∉ advice).
Proof.
  intros R. destruct (clean_response_cases raw) as [F|(l0 & l1 & rest & E & P)].
  - rewrite F in R. injection R as <- <-. split; compute_done.
  - rewrite P in R. injection R as <- <-.
    assert (I0 : l0 ∈ split 10 raw) by (rewrite E; now left).
    assert (I1 : l1 ∈ split 10 raw) by (rewrite E; right; now left).
    apply split_piece_no_sep in I0, I1.
    split; intros H; apply clean_line_elem in H; contradiction.
Qed.

Lemma clean_response_single_lines_witness :
  clean_response blank_between = Return (py "A", [])
  /\ (10 ∉ py "A") /\ (10 ∉ ([] : pystr)).
Proof.
  split; [reflexivity|].
  exact (clean_response_single_lines blank_between (py "A") [] eq_refl).
Defined.

(** X3: On any response, neither part of the result starts with a digit, a
    dot or a space, and neither ends with whitespace. *)
Theorem clean_response_result_shape raw category advice :
  clean_response raw = Return (category, advice) ->
  starts_with_any (char_in numbering) category = false
  /\ starts_with_any isspace (rev category) = false
  /\ starts_with_any (char_in numbering) advice = false
  /\ starts_with_any isspace (rev advice) = false.
Proof.
  intros R. destruct (clean_response_cases raw) as [F|(l0 & l1 & rest & E & P)].
  - rewrite F in R. injection R as <- <-. repeat split; reflexivity.
  - rewrite P in R. injection R as <- <-.
    destruct (clean_line_shape l0), (clean_line_shape l1). auto.
Qed.

Lemma clean_response_result_shape_witness :
  starts_with_any (char_in numbering) (py "Plastic") = false
  /\ starts_with_any isspace (rev (py "Plastic")) = false
  /\ starts_with_any (char_in numbering) (py "Recycle bin") = false
  /\ starts_with_any isspace (rev (py "Recycle bin")) = false.
Proof.
  exact (clean_response_result_shape numbered (py "Plastic")
           (py "Recycle bin") eq_refl).
Defined.

(** X4: Whitespace around a line, a carriage return before the newline for
    one, does not change the cleaned line. *)
Theorem clean_line_ignores_outer_whitespace ws1 line ws2 :
  Forall (fun c => isspace c = true) ws1 ->
  Forall (fun c => isspace c = true) ws2 ->
  clean_line (ws1 ++ line ++ ws2) = clean_line line.
Proof.
  intros F1 F2. unfold clean_line, strip. f_equal.
  rewrite lstrip_with_all by assumption.
  now apply strip_both_app.
Qed.

Lemma clean_line_ignores_outer_whitespace_witness :
  clean_line ([32; 9] ++ py "3. Metal" ++ [13]) = clean_line (py "3. Metal").
Proof.
  apply clean_line_ignores_outer_whitespace;
    repeat constructor.
Defined.

(** ** The image encoder: the text it writes *)

Module EncoderFacts.
Import Base64.

Ltac Zify.zify_post_hook ::= Z.to_euclidean_division_equations.

Lemma enc6_in_alphabet i :
  i < 64 -> char_in alphabet (Byte.to_N (enc6 i)) = true.
Proof.
  intros Hi.
  assert (T : forallb (fun j => char_in alphabet (Byte.to_N (enc6 j)))
                      (List.map N.of_nat (seq 0 64)) = true)
    by (vm_compute; reflexivity).
  rewrite forallb_forall in T. apply T.
  apply in_map_iff. exists (N.to_nat i). split; [apply N2Nat.id|].
  apply in_seq. lia.
Qed.

Lemma enc6_allowed i :
  i < 64 -> char_in (alphabet ++ [pad]) (Byte.to_N (enc6 i)) = true.
Proof.
  intros Hi. unfold char_in. rewrite existsb_app.
  apply orb_true_iff. left. now apply enc6_in_alphabet.
Qed.

Lemma pad_allowed : char_in (alphabet ++ [pad]) (Byte.to_N pad_byte) = true.
Proof. vm_compute. reflexivity. Qed.

(** The encoder writes characters of the alphabet and padding only. *)
Lemma b64encode_alphabet bs :
  Forall (fun b => char_in (alphabet ++ [pad]) (Byte.to_N b) = true)
         (b64encode bs).
Proof.
  induction bs as [|x|x y|x y z l IH] using Base64Facts.list_ind3;
    cbn [b64encode].
  - constructor.
  - pose proof (Base64Facts.to_N_lt x).
    constructor; [apply enc6_allowed; lia|].
    constructor; [apply enc6_allowed; lia|].
    constructor; [exact pad_allowed|].
    constructor; [exact pad_allowed|]. constructor.
  - pose proof (Base64Facts.to_N_lt x). pose proof (Base64Facts.to_N_lt y).
    constructor; [apply enc6_allowed; lia|].
    constructor; [apply enc6_allowed; lia|].
    constructor; [apply enc6_allowed; lia|].
    constructor; [exact pad_allowed|]. constructor.
  - pose proof (Base64Facts.to_N_lt x). pose proof (Base64Facts.to_N_lt y).
    pose proof (Base64Facts.to_N_lt z).
    constructor; [apply enc6_allowed; lia|].
    constructor; [apply enc6_allowed; lia|].
    constructor; [apply enc6_allowed; lia|].
    constructor; [apply enc6_allowed; lia|]. exact IH.
Qed.

(** Four characters for every three bytes, the last group rounded up. *)
Lemma b64encode_length bs :
  length (b64encode bs) = (4 * ((length bs + 2) / 3))%nat.
Proof.
  induction bs as [|x|x y|x y z l IH] using Base64Facts.list_ind3.
  - reflexivity.
  - reflexivity.
  - reflexivity.
  - cbn [b64encode length]. rewrite IH.
    replace (S (S (S (length l))) + 2)%nat with (length l + 2 + 1 * 3)%nat
      by lia.
    rewrite Nat.div_add by lia. lia.
Qed.

(** The encoder of the classifier never raises: its text is the Base64
    text of the compressed bytes. *)
Lemma encode_image_text imencode f :
  encode_image imencode f
  = Return (List.map Byte.to_N (b64encode (imencode f))).
Proof.
  unfold encode_image.
  apply Base64Facts.utf8_decode_ascii, Base64Facts.b64encode_ascii.
Qed.

Lemma b64encode_nil_iff bs : b64encode bs = [] <-> bs = [].
Proof.
  split; [|intros ->; reflexivity].
  destruct bs as [|x [|y [|z l]]]; [reflexivity|discriminate..].
Qed.

End EncoderFacts.

(** X5: Whenever [encode_image] returns a text, the text is made of the 64
    characters of the Base64 alphabet and of [=], and has four characters
    for every three bytes of the compressed image, rounded up. *)
Theorem encode_image_text_shape (imencode : frame -> list byte) (f : frame)
    (text : pystr) :
  encode_image imencode f = Return text ->
  length text = (4 * ((length (imencode f) + 2) / 3))%nat
  /\ Forall (fun c => char_in (Base64.alphabet ++ [Base64.pad]) c = true)
            text.
Proof.
  rewrite EncoderFacts.encode_image_text. intros [= <-]. split.
  - rewrite length_map. apply EncoderFacts.b64encode_length.
  - apply Forall_map. apply EncoderFacts.b64encode_alphabet.
Qed.

Lemma encode_image_text_shape_witness :
  encode_image pixels (MkFrame 1 1 [x4d; x61; x6e; x21]) = Return (py "TWFuIQ==")
  /\ length (py "TWFuIQ==") = 8%nat
  /\ Forall (fun c => char_in (Base64.alphabet ++ [Base64.pad]) c = true)
            (py "TWFuIQ==").
Proof.
  split; [reflexivity|].
  exact (encode_image_text_shape pixels (MkFrame 1 1 [x4d; x61; x6e; x21])
           (py "TWFuIQ==") eq_refl).
Defined.

(** X6: Two frames get the same text only if their compressed bytes are the
    same. *)
Theorem encode_image_injective (imencode : frame -> list byte) (f g : frame) :
  encode_image imencode f = encode_image imencode g ->
  imencode f = imencode g.
Proof.
  rewrite !EncoderFacts.encode_image_text. intros [= E].
  apply (f_equal Base64.b64decode) in E.
  rewrite !Base64Facts.b64decode_b64encode in E. now injection E.
Qed.

Lemma encode_image_injective_witness :
  pixels (MkFrame 1 1 [x4d; x61; x6e]) = pixels (MkFrame 3 1 [x4d; x61; x6e]).
Proof.
  exact (encode_image_injective pixels (MkFrame 1 1 [x4d; x61; x6e])
           (MkFrame 3 1 [x4d; x61; x6e]) eq_refl).
Defined.

(** X7: The text is empty exactly when the compressor produced no byte. *)
Theorem encode_image_empty_iff (imencode : frame -> list byte) (f : frame)
    (text : pystr) :
  encode_image imencode f = Return text ->
  (truth text = false <-> imencode f = []).
Proof.
  rewrite EncoderFacts.encode_image_text. intros [= <-].
  rewrite <- EncoderFacts.b64encode_nil_iff.
  destruct (Base64.b64encode (imencode f)); simpl; split;
    (reflexivity || discriminate).
Qed.

Lemma encode_image_empty_iff_witness :
  truth (py "TWFu") = false <-> pixels (MkFrame 1 1 [x4d; x61; x6e]) = [].
Proof.
  exact (encode_image_empty_iff pixels (MkFrame 1 1 [x4d; x61; x6e])
           (py "TWFu") eq_refl).
Defined.

(** ** The remote call: one request, and what comes back *)

Arguments build_request : simpl never.

(** X9: [classify_image] on a non-empty image calls
    [self.client.chat.completions.create] once, the first thing it does,
    with the prompt as text, the [data:] URL of that image, the model
    name and [max_tokens=100]; whatever the call returns or raises,
    [classify_image] does not call it again. *)
Theorem classify_image_calls_once create self base64_image :
  truth base64_image = true ->
  exists req rest,
    fst (classify_image create self base64_image) = GroqCreate req :: rest
    /\ req_text req = prompt
    /\ req_image_url req = py "data:image/jpeg;base64," ++ base64_image
    /\ req_model req = py "meta-llama/llama-4-scout-17b-16e-instruct"
    /\ req_max_tokens req = 100
    /\ existsb is_remote_call rest = false.
Proof.
  intros T. exists (build_request base64_image).
  apply truth_cons in T as (c & img & ->).
  unfold classify_image. simpl.
  destruct (create (client self) (build_request (c :: img))) as [r|e]; simpl.
  - destruct (full_response_of r) as [full|e]; simpl.
    + destruct (clean_response_total full) as (cat & adv & ->). simpl.
      eexists. repeat split; reflexivity.
    + destruct (isinstance e "Exception"); simpl; eexists;
        repeat split; reflexivity.
  - destruct (isinstance e "Exception"); simpl; eexists;
      repeat split; reflexivity.
Qed.

Lemma classify_image_calls_once_witness :
  exists req rest,
    fst (classify_image (fun _ _ => Raise RateLimitError)
                        some_classifier some_image)
    = GroqCreate req :: rest
    /\ req_text req = prompt
    /\ req_image_url req = py "data:image/jpeg;base64,/9j/4AAQ"
    /\ req_model req = py "meta-llama/llama-4-scout-17b-16e-instruct"
    /\ req_max_tokens req = 100
    /\ existsb is_remote_call rest = false.
Proof.
  exact (classify_image_calls_once (fun _ _ => Raise RateLimitError)
           some_classifier some_image eq_refl).
Defined.





(** X12: A reply without any choice, or whose first choice has no content, is
    masked like a failure of the call: an error notice and the fallback
    pair, and the reply is not printed. *)
Theorem classify_image_malformed_reply_masked create self base64_image r :
  truth base64_image = true ->
  create (client self) (build_request base64_image) = Return r ->
  choices r = [] \/ (exists others, choices r = MkChoice None :: others) ->
  exists msg,
    classify_image create self base64_image
    = ([GroqCreate (build_request base64_image);
        StError (py "Classification error: " ++ msg)],
       Return fallback).
Proof.
  intros T E M. apply truth_cons in T as (c & img & ->).
  unfold classify_image. simpl. rewrite E. simpl.
  destruct r as [chs]. simpl in M.
  destruct M as [->|(others & ->)]; simpl; eexists; reflexivity.
Qed.

Lemma classify_image_malformed_reply_masked_witness :
  exists msg,
    classify_image (fun _ _ => Return (MkResponse []))
                   some_classifier some_image
    = ([GroqCreate (build_request some_image);
        StError (py "Classification error: " ++ msg)],
       Return fallback).
Proof.
  exact (classify_image_malformed_reply_masked
           (fun _ _ => Return (MkResponse [])) some_classifier some_image
           (MkResponse []) eq_refl eq_refl (or_introl eq_refl)).
Defined.

(** ** The constructor: where the key comes from *)

Lemma init_with_key environ dotenv api_key k :
  py_or api_key (getenv (load_dotenv environ dotenv) (py "GROQ_API_KEY"))
  = Some k ->
  truth k = true ->
  init environ dotenv api_key
  = ([LoadDotenv; GroqInit k], Return (MkClassifier (MkGroq k))).
Proof.
  intros E T. unfold init. cbv zeta. rewrite E. simpl. rewrite T. reflexivity.
Qed.

Lemma init_without_key environ dotenv api_key :
  truthy (py_or api_key
            (getenv (load_dotenv environ dotenv) (py "GROQ_API_KEY")))
  = false ->
  init environ dotenv api_key
  = ([LoadDotenv;
      StError (py "No Groq API key found. Please set GROQ_API_KEY in .env file.")],
     Raise (ValueError (py "No API key provided"))).
Proof.
  intros E. unfold init. cbv zeta. rewrite E. reflexivity.
Qed.

(** X13: A non-empty key passed to the constructor is the key of the client,
    whatever the environment and the [.env] file hold. *)
Theorem init_explicit_key_wins environ dotenv k :
  truth k = true ->
  init environ dotenv (Some k)
  = ([LoadDotenv; GroqInit k], Return (MkClassifier (MkGroq k))).
Proof.
  intros T. apply init_with_key; [|exact T].
  unfold py_or. simpl. now rewrite T.
Qed.

Lemma init_explicit_key_wins_witness :
  init {[ py "GROQ_API_KEY" := py "gsk_env" ]} ∅ (Some (py "gsk_arg"))
  = ([LoadDotenv; GroqInit (py "gsk_arg")],
     Return (MkClassifier (MkGroq (py "gsk_arg")))).
Proof.
  exact (init_explicit_key_wins {[ py "GROQ_API_KEY" := py "gsk_env" ]} ∅
           (py "gsk_arg") eq_refl).
Defined.

(** X14: An empty string counts as no key at all: when the argument is [None]
    or empty and the variable is unset or empty, the constructor reports
    the error and raises [ValueError], and creates no client. *)
Theorem init_empty_key_is_missing environ dotenv api_key :
  truthy api_key = false ->
  truthy (getenv (load_dotenv environ dotenv) (py "GROQ_API_KEY")) = false ->
  init environ dotenv api_key
  = ([LoadDotenv;
      StError (py "No Groq API key found. Please set GROQ_API_KEY in .env file.")],
     Raise (ValueError (py "No API key provided")))
  /\ existsb is_client_creation (fst (init environ dotenv api_key)) = false.
Proof.
  intros A G.
  assert (I : init environ dotenv api_key
              = ([LoadDotenv;
                  StError (py "No Groq API key found. Please set GROQ_API_KEY in .env file.")],
                 Raise (ValueError (py "No API key provided")))).
  { apply init_without_key. unfold py_or. now rewrite A. }
  split; [exact I|]. now rewrite I.
Qed.

Lemma init_empty_key_is_missing_witness :
  snd (init {[ py "GROQ_API_KEY" := [] ]} ∅ (Some []))
  = Raise (ValueError (py "No API key provided")).
Proof.
  assert (G : truthy (getenv (load_dotenv {[ py "GROQ_API_KEY" := [] ]} ∅)
                             (py "GROQ_API_KEY")) = false)
    by (vm_compute; reflexivity).
  rewrite (proj1 (init_empty_key_is_missing
                    {[ py "GROQ_API_KEY" := [] ]} ∅ (Some []) eq_refl G)).
  reflexivity.
Defined.

(** X15: Without a key in the argument, a non-empty [GROQ_API_KEY] of the
    process environment is the key of the client, also when the [.env]
    file gives another value. *)
Theorem init_uses_environment_key environ dotenv api_key k :
  truthy api_key = false ->
  environ !! py "GROQ_API_KEY" = Some k ->
  truth k = true ->
  init environ dotenv api_key
  = ([LoadDotenv; GroqInit k], Return (MkClassifier (MkGroq k))).
Proof.
  intros A E T. apply init_with_key; [|exact T].
  unfold py_or. rewrite A. unfold getenv, load_dotenv.
  now apply lookup_union_Some_l.
Qed.

Lemma init_uses_environment_key_witness :
  init {[ py "GROQ_API_KEY" := py "gsk_env" ]}
       {[ py "GROQ_API_KEY" := py "gsk_file" ]} None
  = ([LoadDotenv; GroqInit (py "gsk_env")],
     Return (MkClassifier (MkGroq (py "gsk_env")))).
Proof.
  exact (init_uses_environment_key
           {[ py "GROQ_API_KEY" := py "gsk_env" ]}
           {[ py "GROQ_API_KEY" := py "gsk_file" ]} None (py "gsk_env")
           eq_refl (lookup_singleton_eq _ _) eq_refl).
Defined.

(** X16: Without a key in the argument and with the variable unset in the
    process environment, a non-empty [GROQ_API_KEY] of the [.env] file is
    the key of the client. *)
Theorem init_uses_dotenv_key environ dotenv api_key k :
  truthy api_key = false ->
  environ !! py "GROQ_API_KEY" = None ->
  dotenv !! py "GROQ_API_KEY" = Some k ->
  truth k = true ->
  init environ dotenv api_key
  = ([LoadDotenv; GroqInit k], Return (MkClassifier (MkGroq k))).
Proof.
  intros A E D T. apply init_with_key; [|exact T].
  unfold py_or. rewrite A. unfold getenv, load_dotenv.
  rewrite lookup_union_r; assumption.
Qed.

Lemma init_uses_dotenv_key_witness :
  init ∅ {[ py "GROQ_API_KEY" := py "gsk_file" ]} None
  = ([LoadDotenv; GroqInit (py "gsk_file")],
     Return (MkClassifier (MkGroq (py "gsk_file")))).
Proof.
  exact (init_uses_dotenv_key ∅ {[ py "GROQ_API_KEY" := py "gsk_file" ]}
           None (py "gsk_file") eq_refl (lookup_empty _)
           (lookup_singleton_eq _ _) eq_refl).
Defined.

(** ** The script: one run of [main] *)

(** The events of a classification: nothing, the notice of an empty
    image, or one request followed by a print or a notice. *)
Lemma classify_image_trace create self base64_image :
  (truth base64_image = false
   /\ fst (classify_image create self base64_image)
      = [StError (py "Empty image input")])
  \/ exists rest,
       truth base64_image = true
       /\ fst (classify_image create self base64_image)
          = GroqCreate (build_request base64_image) :: rest
       /\ existsb is_remote_call rest = false
       /\ existsb is_release rest = false.
Proof.
  destruct base64_image as [|c img]; [left; split; reflexivity|right].
  unfold classify_image. simpl.
  destruct (create (client self) (build_request (c :: img))) as [r|e]; simpl.
  - destruct (full_response_of r) as [full|e]; simpl.
    + destruct (clean_response_total full) as (cat & adv & ->). simpl.
      eexists. repeat split; reflexivity.
    + destruct (isinstance e "Exception"); simpl; eexists;
        repeat split; reflexivity.
  - destruct (isinstance e "Exception"); simpl; eexists;
      repeat split; reflexivity.
Qed.

(** The classification step on a session that holds a frame. *)
Lemma classify_step_frame w cl (ss : gmap string value) f :
  ss !! "current_frame" = Some (VFrame f) ->
  classify_step w cl ss
  = match classify_image (create w) cl
            (List.map Byte.to_N (Base64.b64encode (imencode w f))) with
    | (t, Return r) =>
        (t ++ [StSuccess (py "Best Case Classification: " ++ fst r);
               StInfo (py "Handling Advice: " ++ snd r)],
         Return (<["handling_advice" := VStr (snd r)]>
                   (<["classification" := VStr (fst r)]> ss)))
    | (t, Raise e) => (t, Raise e)
    end.
Proof.
  intros L. unfold classify_step. rewrite L.
  rewrite EncoderFacts.encode_image_text. simpl.
  destruct (classify_image _ _ _) as [t [r|e]]; reflexivity.
Qed.

(** The classification step calls the remote model at most once and
    never releases the camera. *)
Lemma classify_step_trace w cl (ss : gmap string value) :
  (length (List.filter is_remote_call (fst (classify_step w cl ss))) <= 1)%nat
  /\ existsb is_release (fst (classify_step w cl ss)) = false.
Proof.
  destruct (ss !! "current_frame") as [[| s|f]|] eqn:L.
  - unfold classify_step. rewrite L. split; [simpl; lia|reflexivity].
  - unfold classify_step. rewrite L. split; [simpl; lia|reflexivity].
  - rewrite (classify_step_frame w cl ss f L).
    destruct (classify_image_trace (create w) cl
                (List.map Byte.to_N (Base64.b64encode (imencode w f))))
      as [(_ & E)|(rest & _ & E & R & C)];
      destruct (classify_image _ _ _) as [t [r|e]]; simpl in E; subst t;
      simpl; rewrite ?List.filter_app, ?existsb_app, ?length_app; simpl.
    + split; [lia|reflexivity].
    + split; [lia|reflexivity].
    + rewrite C. split; [|reflexivity].
      assert (Z : List.filter is_remote_call rest = []).
      { clear -R. induction rest as [|ev rest IH]; [reflexivity|].
        simpl in *. apply orb_false_elim in R as [-> R]. now apply IH. }
      rewrite Z. simpl. lia.
    + rewrite C. split; [|reflexivity].
      assert (Z : List.filter is_remote_call rest = []).
      { clear -R. induction rest as [|ev rest IH]; [reflexivity|].
        simpl in *. apply orb_false_elim in R as [-> R]. now apply IH. }
      rewrite Z. simpl. lia.
  - unfold classify_step. rewrite L. split; [simpl; lia|reflexivity].
Qed.

(** The constructor without argument fails for want of a key, or builds a
    client with the key of the environment. *)
Lemma init_cases environ dotenv :
  init environ dotenv None
  = ([LoadDotenv;
      StError (py "No Groq API key found. Please set GROQ_API_KEY in .env file.")],
     Raise (ValueError (py "No API key provided")))
  \/ exists k,
       truth k = true
       /\ init environ dotenv None
          = ([LoadDotenv; GroqInit k], Return (MkClassifier (MkGroq k))).
Proof.
  destruct (getenv (load_dotenv environ dotenv) (py "GROQ_API_KEY"))
    as [k|] eqn:G; [destruct (truth k) eqn:T|].
  - right. exists k. split; [exact T|]. now apply init_with_key.
  - left. apply init_without_key. unfold py_or. simpl. now rewrite G.
  - left. apply init_without_key. unfold py_or. simpl. now rewrite G.
Qed.

Lemma main_without_key w (ss : gmap string value) :
  init (os_environ w) (dotenv_file w) None
  = ([LoadDotenv;
      StError (py "No Groq API key found. Please set GROQ_API_KEY in .env file.")],
     Raise (ValueError (py "No API key provided"))) ->
  main w ss
  = ([StSetPageConfig (py "Waste Classifier") (py ":recycle:");
      StTitle (127757 :: py " Real-Time Waste Classification");
      LoadDotenv;
      StError (py "No Groq API key found. Please set GROQ_API_KEY in .env file.");
      StStop],
     Raise StopException).
Proof. intros I. unfold main. rewrite I. reflexivity. Qed.

Lemma main_camera_closed w (ss : gmap string value) k :
  init (os_environ w) (dotenv_file w) None
  = ([LoadDotenv; GroqInit k], Return (MkClassifier (MkGroq k))) ->
  cap_isOpened w = false ->
  main w ss
  = ([StSetPageConfig (py "Waste Classifier") (py ":recycle:");
      StTitle (127757 :: py " Real-Time Waste Classification");
      LoadDotenv; GroqInit k; CapOpen 0;
      StError (py "Unable to access webcam")],
     Return (setdefault_none "current_frame"
               (setdefault_none "handling_advice"
                  (setdefault_none "classification" ss)))).
Proof. intros I O. unfold main. rewrite I. simpl. rewrite O. reflexivity. Qed.

(** A run with a key and an open camera: the page, the widgets, the frame
    read, the classification if asked for, the release if asked for. *)
Lemma main_camera_open w (ss : gmap string value) k :
  init (os_environ w) (dotenv_file w) None
  = ([LoadDotenv; GroqInit k], Return (MkClassifier (MkGroq k))) ->
  cap_isOpened w = true ->
  main w ss
  = let ss0 := setdefault_none "current_frame"
                 (setdefault_none "handling_advice"
                    (setdefault_none "classification" ss)) in
    let ss1 := match cap_read w with
               | Some f => <["current_frame" := VFrame f]> ss0
               | None => ss0
               end in
    let shown := match cap_read w with
                 | Some f => [StImage (cvtColor w f)]
                 | None => []
                 end in
    let step := if classify_button w
                then classify_step w (MkClassifier (MkGroq k)) ss1
                else ([], Return ss1) in
    let page := [StSetPageConfig (py "Waste Classifier") (py ":recycle:");
                 StTitle (127757 :: py " Real-Time Waste Classification");
                 LoadDotenv; GroqInit k; CapOpen 0;
                 StEmpty; StEmpty; StEmpty;
                 StButton (py "Classify Current Frame");
                 StButton (py "Stop Webcam"); CapRead] in
    match snd step with
    | Return ss2 =>
        (page ++ shown ++ fst step
         ++ (if stop_button w
             then [CapRelease; StWarning (py "Webcam feed stopped")]
             else []),
         Return ss2)
    | Raise e => (page ++ shown ++ fst step, Raise e)
    end.
Proof.
  intros I O. unfold main. rewrite I. simpl. rewrite O. simpl.
  destruct (cap_read w) as [f|]; destruct (classify_button w); simpl;
    try (destruct (classify_step _ _ _) as [tc [ss2|e]]; simpl);
    destruct (stop_button w); simpl; rewrite ?app_nil_r; reflexivity.
Qed.

Lemma existsb_filter_nil {A} (q : A -> bool) l :
  existsb q l = false -> List.filter q l = [].
Proof.
  induction l as [|x l IH]; [reflexivity|]. simpl.
  intros H. apply orb_false_elim in H as [-> H]. now apply IH.
Qed.

Lemma setdefault_none_same key (ss : gmap string value) :
  setdefault_none key ss !! key = Some (default VNone (ss !! key)).
Proof.
  unfold setdefault_none. destruct (ss !! key) as [v|] eqn:E.
  - now rewrite E.
  - now rewrite lookup_insert_eq.
Qed.

Lemma setdefault_none_other key key' (ss : gmap string value) :
  key <> key' -> setdefault_none key ss !! key' = ss !! key'.
Proof.
  intros N. unfold setdefault_none. destruct (ss !! key); [reflexivity|].
  now rewrite lookup_insert_ne.
Qed.

(** The constructor without argument, when the environment or the
    [.env] file gives a non-empty key. *)
Lemma init_from_getenv environ dotenv k :
  getenv (load_dotenv environ dotenv) (py "GROQ_API_KEY") = Some k ->
  truth k = true ->
  init environ dotenv None
  = ([LoadDotenv; GroqInit k], Return (MkClassifier (MkGroq k))).
Proof.
  intros E T. apply init_with_key; [|exact T]. exact E.
Qed.

(** X17: When a non-empty key is available, from the environment or from
    the [.env] file, and the camera cannot be opened, the run ends after
    the notice: no button is drawn, no frame is read, nothing is
    classified, and the session only gets its three keys. *)
Theorem main_camera_unavailable w (ss : gmap string value) k :
  getenv (load_dotenv (os_environ w) (dotenv_file w)) (py "GROQ_API_KEY")
  = Some k ->
  truth k = true ->
  cap_isOpened w = false ->
  main w ss
  = ([StSetPageConfig (py "Waste Classifier") (py ":recycle:");
      StTitle (127757 :: py " Real-Time Waste Classification");
      LoadDotenv; GroqInit k; CapOpen 0;
      StError (py "Unable to access webcam")],
     Return (setdefault_none "current_frame"
               (setdefault_none "handling_advice"
                  (setdefault_none "classification" ss)))).
Proof.
  intros E T O. apply main_camera_closed; [|exact O].
  now apply init_from_getenv.
Qed.

(** X18: A run calls the remote model at most once, in every world. *)
Theorem main_at_most_one_remote_call w (ss : gmap string value) :
  (length (List.filter is_remote_call (fst (main w ss))) <= 1)%nat.
Proof.
  destruct (init_cases (os_environ w) (dotenv_file w)) as [I|(k & T & I)].
  { rewrite (main_without_key w ss I). simpl. lia. }
  destruct (cap_isOpened w) eqn:O.
  2: { rewrite (main_camera_closed w ss k I O). simpl. lia. }
  rewrite (main_camera_open w ss k I O). cbv zeta.
  destruct (classify_button w).
  - match goal with
    | |- context [classify_step ?a ?b ?c] =>
        destruct (classify_step_trace a b c) as [C _];
        destruct (classify_step a b c) as [tc [ss2|e]]
    end; simpl in *;
      destruct (cap_read w); destruct (stop_button w); simpl;
      rewrite ?List.filter_app, ?length_app, ?app_nil_r; simpl; lia.
  - simpl. destruct (cap_read w); destruct (stop_button w); simpl; lia.
Qed.

(** X19: A run in which the classify button is not pressed calls the remote
    model not at all. *)
Theorem main_no_click_no_remote_call w (ss : gmap string value) :
  classify_button w = false ->
  existsb is_remote_call (fst (main w ss)) = false.
Proof.
  intros B.
  destruct (init_cases (os_environ w) (dotenv_file w)) as [I|(k & T & I)].
  { now rewrite (main_without_key w ss I). }
  destruct (cap_isOpened w) eqn:O.
  2: { now rewrite (main_camera_closed w ss k I O). }
  rewrite (main_camera_open w ss k I O). cbv zeta. rewrite B. simpl.
  destruct (cap_read w); destruct (stop_button w); reflexivity.
Qed.


(** X21: A run without a click keeps the last classification and advice of
    the session, or sets them to [None] when the session is new. *)
Theorem main_keeps_previous_result w (ss ss' : gmap string value) :
  classify_button w = false ->
  snd (main w ss) = Return ss' ->
  ss' !! "classification" = Some (default VNone (ss !! "classification"))
  /\ ss' !! "handling_advice" = Some (default VNone (ss !! "handling_advice")).
Proof.
  intros B R.
  destruct (init_cases (os_environ w) (dotenv_file w)) as [I|(k & T & I)].
  { rewrite (main_without_key w ss I) in R. discriminate R. }
  assert (K : forall f : option frame,
             let s0 := setdefault_none "current_frame"
                         (setdefault_none "handling_advice"
                            (setdefault_none "classification" ss)) in
             let s1 := match f with
                       | Some f => <["current_frame" := VFrame f]> s0
                       | None => s0
                       end in
             s1 !! "classification"
             = Some (default VNone (ss !! "classification"))
             /\ s1 !! "handling_advice"
                = Some (default VNone (ss !! "handling_advice"))).
  { intros [f|]; cbv zeta; rewrite ?lookup_insert_ne by discriminate;
      rewrite !(setdefault_none_other "current_frame") by discriminate;
      (split;
       [rewrite (setdefault_none_other "handling_advice" "classification")
          by discriminate;
        apply setdefault_none_same
       |rewrite setdefault_none_same;
        now rewrite (setdefault_none_other "classification" "handling_advice")
          by discriminate]). }
  destruct (cap_isOpened w) eqn:O.
  - rewrite (main_camera_open w ss k I O) in R. cbv zeta in R.
    rewrite B in R. simpl in R. injection R as <-. apply (K (cap_read w)).
  - rewrite (main_camera_closed w ss k I O) in R. simpl in R.
    injection R as <-. apply (K None).
Qed.

Lemma b64_text_truth bs :
  bs <> [] -> truth (List.map Byte.to_N (Base64.b64encode bs)) = true.
Proof.
  intros N. destruct (Base64.b64encode bs) eqn:E; [|reflexivity].
  apply (proj1 (EncoderFacts.b64encode_nil_iff bs)) in E. congruence.
Qed.

Lemma classify_image_raises create self base64_image e :
  truth base64_image = true ->
  create (client self) (build_request base64_image) = Raise e ->
  isinstance e "Exception" = true ->
  classify_image create self base64_image
  = ([GroqCreate (build_request base64_image);
      StError (py "Classification error: " ++ exn_msg e)],
     Return fallback).
Proof.
  intros T E I. apply truth_cons in T as (c & img & ->).
  unfold classify_image. simpl. rewrite E. simpl. now rewrite I.
Qed.

(** X22: On a click, with a non-empty key available from the environment
    or the [.env] file, an open camera and a frame just read whose JPEG
    is not empty, the request carries the frame just read: its image URL
    is the [data:] prefix followed by a text that decodes to the JPEG
    bytes of that frame, and it is the only request of the run. *)
Theorem main_sends_current_frame w (ss : gmap string value) k f :
  getenv (load_dotenv (os_environ w) (dotenv_file w)) (py "GROQ_API_KEY")
  = Some k ->
  truth k = true ->
  cap_isOpened w = true ->
  cap_read w = Some f ->
  classify_button w = true ->
  imencode w f <> [] ->
  exists text before after,
    Base64.b64decode text = Return (imencode w f)
    /\ fst (main w ss) = before ++ GroqCreate (build_request text) :: after
    /\ req_image_url (build_request text)
       = py "data:image/jpeg;base64," ++ text
    /\ existsb is_remote_call before = false
    /\ existsb is_remote_call after = false.
Proof.
  intros E T O Rd B NE.
  exists (List.map Byte.to_N (Base64.b64encode (imencode w f))).
  rewrite (main_camera_open w ss k (init_from_getenv _ _ k E T) O).
  cbv zeta. rewrite Rd, B.
  rewrite (classify_step_frame w _ _ f) by apply lookup_insert_eq.
  destruct (classify_image_trace (create w) (MkClassifier (MkGroq k))
              (List.map Byte.to_N (Base64.b64encode (imencode w f))))
    as [(F & _)|(rest & _ & Tr & R & _)].
  { rewrite b64_text_truth in F by assumption. discriminate F. }
  destruct (classify_image _ _ _) as [t [r|e]]; simpl in Tr; subst t; simpl.
  - eexists [_; _; _; _; _; _; _; _; _; _; _; _], _.
    split; [apply Base64Facts.b64decode_b64encode|].
    split; [reflexivity|]. split; [reflexivity|]. split; [reflexivity|].
    rewrite !existsb_app, R. simpl. now destruct (stop_button w).
  - eexists [_; _; _; _; _; _; _; _; _; _; _; _], _.
    split; [apply Base64Facts.b64decode_b64encode|].
    split; [reflexivity|]. split; [reflexivity|]. split; [reflexivity|].
    exact R.
Qed.

(** X23: On a click, with a non-empty key available from the environment
    or the [.env] file, an open camera and a frame just read, if the run
    returns then the session holds the pair
    [classify_image] returned and the frame it was computed from, and the
    two boxes on the page show that same pair. *)
Theorem main_stores_what_it_shows w (ss ss' : gmap string value) k f :
  getenv (load_dotenv (os_environ w) (dotenv_file w)) (py "GROQ_API_KEY")
  = Some k ->
  truth k = true ->
  cap_isOpened w = true ->
  cap_read w = Some f ->
  classify_button w = true ->
  snd (main w ss) = Return ss' ->
  exists category advice,
    snd (classify_image (create w) (MkClassifier (MkGroq k))
           (List.map Byte.to_N (Base64.b64encode (imencode w f))))
    = Return (category, advice)
    /\ ss' !! "classification" = Some (VStr category)
    /\ ss' !! "handling_advice" = Some (VStr advice)
    /\ ss' !! "current_frame" = Some (VFrame f)
    /\ StSuccess (py "Best Case Classification: " ++ category)
         ∈ fst (main w ss)
    /\ StInfo (py "Handling Advice: " ++ advice) ∈ fst (main w ss).
Proof.
  intros E T O Rd B R. revert R.
  rewrite (main_camera_open w ss k (init_from_getenv _ _ k E T) O).
  cbv zeta. rewrite Rd, B.
  rewrite (classify_step_frame w _ _ f) by apply lookup_insert_eq.
  destruct (classify_image _ _ _) as [t [[category advice]|e]];
    cbn [fst snd]; [|discriminate].
  intros [= <-]. exists category, advice. split; [reflexivity|].
  split; [rewrite lookup_insert_ne by discriminate; apply lookup_insert_eq|].
  split; [apply lookup_insert_eq|].
  split; [rewrite !lookup_insert_ne by discriminate; apply lookup_insert_eq|].
  split.
  - apply elem_of_app. right. apply elem_of_app. right.
    apply elem_of_app. left. apply elem_of_app. right. now left.
  - apply elem_of_app. right. apply elem_of_app. right.
    apply elem_of_app. left. apply elem_of_app. right. right. now left.
Qed.

(** X24: On a click, with a non-empty key available from the environment
    or the [.env] file, an open camera and a frame just read whose JPEG
    is not empty, when the remote call raises an [Exception] the page
    shows the error notice and then the fallback pair in the result
    boxes, the session holds the fallback pair, and the camera is
    released afterwards if the stop button is pressed. *)
Theorem main_failed_classification w (ss : gmap string value) k f e :
  getenv (load_dotenv (os_environ w) (dotenv_file w)) (py "GROQ_API_KEY")
  = Some k ->
  truth k = true ->
  cap_isOpened w = true ->
  cap_read w = Some f ->
  classify_button w = true ->
  imencode w f <> [] ->
  create w (MkGroq k)
    (build_request (List.map Byte.to_N (Base64.b64encode (imencode w f))))
  = Raise e ->
  isinstance e "Exception" = true ->
  main w ss
  = ([StSetPageConfig (py "Waste Classifier") (py ":recycle:");
      StTitle (127757 :: py " Real-Time Waste Classification");
      LoadDotenv; GroqInit k; CapOpen 0;
      StEmpty; StEmpty; StEmpty;
      StButton (py "Classify Current Frame");
      StButton (py "Stop Webcam"); CapRead;
      StImage (cvtColor w f);
      GroqCreate
        (build_request (List.map Byte.to_N (Base64.b64encode (imencode w f))));
      StError (py "Classification error: " ++ exn_msg e);
      StSuccess (py "Best Case Classification: " ++ py "Miscellaneous");
      StInfo (py "Handling Advice: "
              ++ py "General waste disposal recommended")]
     ++ (if stop_button w
         then [CapRelease; StWarning (py "Webcam feed stopped")]
         else []),
     Return (<["handling_advice" :=
                 VStr (py "General waste disposal recommended")]>
               (<["classification" := VStr (py "Miscellaneous")]>
                  (<["current_frame" := VFrame f]>
                     (setdefault_none "current_frame"
                        (setdefault_none "handling_advice"
                           (setdefault_none "classification" ss))))))).
Proof.
  intros E T O Rd B NE C I.
  rewrite (main_camera_open w ss k (init_from_getenv _ _ k E T) O).
  cbv zeta. rewrite Rd, B.
  rewrite (classify_step_frame w _ _ f) by apply lookup_insert_eq.
  rewrite (classify_image_raises (create w) (MkClassifier (MkGroq k)) _ e
             (b64_text_truth _ NE) C I).
  destruct (stop_button w); reflexivity.
Qed.

(** The key of the example worlds, as the constructor finds it. *)
Lemma getenv_environ_only k :
  getenv (load_dotenv {[ py "GROQ_API_KEY" := k ]} ∅) (py "GROQ_API_KEY")
  = Some k.
Proof.
  unfold getenv, load_dotenv. apply lookup_union_Some_l.
  apply lookup_singleton_eq.
Qed.

Lemma getenv_dotenv_only k :
  getenv (load_dotenv ∅ {[ py "GROQ_API_KEY" := k ]}) (py "GROQ_API_KEY")
  = Some k.
Proof.
  unfold getenv, load_dotenv. rewrite lookup_union_r by apply lookup_empty.
  apply lookup_singleton_eq.
Qed.

Lemma main_camera_unavailable_witness :
  fst (main dotenv_world ∅)
  = [StSetPageConfig (py "Waste Classifier") (py ":recycle:");
     StTitle (127757 :: py " Real-Time Waste Classification");
     LoadDotenv; GroqInit (py "gsk_file"); CapOpen 0;
     StError (py "Unable to access webcam")].
Proof.
  rewrite (main_camera_unavailable dotenv_world ∅ (py "gsk_file")
             (getenv_dotenv_only _) eq_refl eq_refl).
  reflexivity.
Defined.

Lemma main_no_click_no_remote_call_witness :
  classify_button idle_world = false
  /\ existsb is_remote_call (fst (main idle_world ∅)) = false.
Proof.
  split; [reflexivity|].
  exact (main_no_click_no_remote_call idle_world ∅ eq_refl).
Defined.


Lemma main_keeps_previous_result_witness :
  snd (main idle_world {[ "classification" := VStr (py "Glass") ]})
  = Return (<["current_frame" := VFrame (MkFrame 1 1 [x4d; x61; x6e])]>
              (setdefault_none "current_frame"
                 (setdefault_none "handling_advice"
                    (setdefault_none "classification"
                       {[ "classification" := VStr (py "Glass") ]}))))
  /\ (<["current_frame" := VFrame (MkFrame 1 1 [x4d; x61; x6e])]>
        (setdefault_none "current_frame"
           (setdefault_none "handling_advice"
              (setdefault_none "classification"
                 {[ "classification" := VStr (py "Glass") ]}))))
       !! "classification"
     = Some (default VNone
               (({[ "classification" := VStr (py "Glass") ]}
                 : gmap string value) !! "classification")).
Proof.
  assert (R : snd (main idle_world {[ "classification" := VStr (py "Glass") ]})
              = Return (<["current_frame" :=
                            VFrame (MkFrame 1 1 [x4d; x61; x6e])]>
                          (setdefault_none "current_frame"
                             (setdefault_none "handling_advice"
                                (setdefault_none "classification"
                                   {[ "classification" := VStr (py "Glass") ]}))))).
  { rewrite (main_camera_open idle_world _ (py "gsk_key")
               (init_from_getenv _ _ (py "gsk_key")
                  (getenv_environ_only _) eq_refl)
               eq_refl).
    reflexivity. }
  split; [exact R|].
  exact (proj1 (main_keeps_previous_result idle_world _ _ eq_refl R)).
Defined.

Lemma main_sends_current_frame_witness :
  exists text before after,
    Base64.b64decode text = Return [x4d; x61; x6e]
    /\ fst (main failing_stop_world ∅)
       = before ++ GroqCreate (build_request text) :: after.
Proof.
  assert (NE : imencode failing_stop_world (MkFrame 1 1 [x4d; x61; x6e]) <> [])
    by discriminate.
  destruct (main_sends_current_frame failing_stop_world ∅ (py "gsk_file")
              (MkFrame 1 1 [x4d; x61; x6e])
              (getenv_dotenv_only _) eq_refl eq_refl eq_refl eq_refl NE)
    as (text & before & after & D & Tr & _).
  exists text, before, after. split; [exact D|exact Tr].
Defined.

Lemma main_stores_what_it_shows_witness :
  exists category advice,
    snd (classify_image (create keyed_world)
           (MkClassifier (MkGroq (py "gsk_key")))
           (List.map Byte.to_N
              (Base64.b64encode
                 (imencode keyed_world (MkFrame 1 1 [x4d; x61; x6e])))))
    = Return (category, advice)
    /\ StSuccess (py "Best Case Classification: " ++ category)
         ∈ fst (main keyed_world ∅).
Proof.
  assert (R : snd (main keyed_world ∅)
              = Return (<["handling_advice" := VStr (py "Recycle bin")]>
                          (<["classification" := VStr (py "Plastic")]>
                             (<["current_frame" :=
                                  VFrame (MkFrame 1 1 [x4d; x61; x6e])]>
                                (setdefault_none "current_frame"
                                   (setdefault_none "handling_advice"
                                      (setdefault_none "classification" ∅))))))).
  { rewrite (main_camera_open keyed_world _ (py "gsk_key")
               (init_from_getenv _ _ (py "gsk_key")
                  (getenv_environ_only _) eq_refl)
               eq_refl).
    cbv zeta. change (cap_read keyed_world)
      with (Some (MkFrame 1 1 [x4d; x61; x6e])).
    change (classify_button keyed_world) with true. cbv iota.
    rewrite (classify_step_frame keyed_world _ _ (MkFrame 1 1 [x4d; x61; x6e]))
      by apply lookup_insert_eq.
    reflexivity. }
  destruct (main_stores_what_it_shows keyed_world ∅ _ (py "gsk_key")
              (MkFrame 1 1 [x4d; x61; x6e])
              (getenv_environ_only _) eq_refl eq_refl eq_refl eq_refl R)
    as (category & advice & P & _ & _ & _ & S & _).
  exists category, advice. split; assumption.
Defined.

Lemma main_failed_classification_witness :
  exists ss',
    main failing_stop_world ∅
    = ([StSetPageConfig (py "Waste Classifier") (py ":recycle:");
        StTitle (127757 :: py " Real-Time Waste Classification");
        LoadDotenv; GroqInit (py "gsk_file"); CapOpen 0;
        StEmpty; StEmpty; StEmpty;
        StButton (py "Classify Current Frame");
        StButton (py "Stop Webcam"); CapRead;
        StImage (MkFrame 1 1 [x4d; x61; x6e]);
        GroqCreate (build_request (py "TWFu"));
        StError (py "Classification error: Error code: 429");
        StSuccess (py "Best Case Classification: Miscellaneous");
        StInfo (py "Handling Advice: General waste disposal recommended");
        CapRelease; StWarning (py "Webcam feed stopped")],
       Return ss')
    /\ ss' !! "classification" = Some (VStr (py "Miscellaneous")).
Proof.
  assert (NE : imencode failing_stop_world (MkFrame 1 1 [x4d; x61; x6e]) <> [])
    by discriminate.
  rewrite (main_failed_classification failing_stop_world ∅ (py "gsk_file")
             (MkFrame 1 1 [x4d; x61; x6e]) RateLimitError
             (getenv_dotenv_only _) eq_refl eq_refl eq_refl eq_refl
             NE eq_refl eq_refl).
  eexists. split; [reflexivity|].
  rewrite lookup_insert_ne by discriminate. apply lookup_insert_eq.
Defined.
